(** * binance/websockets.py: reconnecting websocket sessions and their manager

    A shallow embedding of [ReconnectingWebsocket] and [BinanceSocketManager].

    - The coroutine [_run] is embedded as a resumable machine: the task of a
      session is suspended at one of the [await] points of the source, and
      [resume] runs the code between that point and the next one, for the
      outcome the event loop delivers there (a value or a raised exception).
    - Everything the code does to the outside (logging, closing a transport,
      calling the handler, sleeping, creating a task, REST calls, timers) is
      recorded in a trace of [event]s.
    - [_conns] is a Python dict: an association list in insertion order with
      unique keys.
    - What the environment answers is an argument of the function that asks:
      the value [random()] returns, the timer handle [call_later] returns,
      the listen key the REST client returns. [fl] is the rounding of a real
      result to the nearest float.
    - Closing a transport is atomic: the task of the session does not run
      during [await self._socket.close()], so a cancellation finds it at the
      [await] where it was suspended.
    - A call of the manager is followed to its end with the other sessions
      at rest: while it stops one session, the tasks of the other sessions
      are delivered nothing (no frame, no fault, no timeout) and stay where
      they are suspended.
    - Strings are sequences of one-byte characters; [len] and slices count
      characters. *)

From Stdlib Require Import ZArith QArith Qround Lia List String Ascii Bool.
From Stdlib Require Import Permutation.
From Stdlib Require Import DecimalString DecimalZ.
Import ListNotations.
Local Open Scope Z_scope.

(** ** Python's [round] on one argument: nearest integer, ties to even. *)

Definition py_round (x : Q) : Z :=
  let f := Qfloor x in
  match Qcompare (x - inject_Z f) (1 # 2) with
  | Lt => f
  | Gt => f + 1
  | Eq => if Z.even f then f else f + 1
  end.

(** Class constants of [ReconnectingWebsocket]. *)
Definition STREAM_URL : string := "wss://stream.binance.com:9443/".
Definition MAX_RECONNECTS : Z := 20.
Definition MAX_RECONNECT_SECONDS : Z := 60.
Definition TIMEOUT : Z := 2.

Section Backoff.

(** [fl x] is the float nearest to the real [x]: a float product is
    [fl (a * b)], a float sum [fl (a + b)]. *)
Variable fl : Q -> Q.

(** [_get_reconnect_wait(self, attempts)], [r] being the value [random()]
    returns. [attempts] is a non-negative int, so [2 ** attempts] is an
    int. *)
Definition _get_reconnect_wait (attempts : Z) (r : Q) : Z :=
  let expo := 2 ^ attempts in
  py_round (fl (fl (r * inject_Z (Z.min MAX_RECONNECT_SECONDS (expo - 1))) + 1)).

End Backoff.

(** ** Exceptions, log records and observable events *)

(** The exception classes the [except] clauses of [_run] tell apart. All are
    instances of [Exception] or [asyncio.CancelledError]; [KeyboardInterrupt]
    and [SystemExit] end the event loop and are outside the model. *)
Inductive exn : Type :=
| gaierror          (* socket.gaierror *)
| CancelledError    (* asyncio.CancelledError *)
| ConnectionClosed  (* websockets.exceptions.ConnectionClosed *)
| TimeoutError      (* asyncio.TimeoutError *)
| RuntimeError      (* RuntimeError *)
| OtherException.   (* any other instance of Exception *)

Inductive result (A : Type) : Type :=
| Returns (a : A)
| Raises (e : exn).
Arguments Returns {A} a.
Arguments Raises {A} e.

(** A transport handle ([WebSocketClientProtocol]), a caller-supplied
    coroutine function and a timer handle are references: what matters is
    their identity. *)
Definition socket : Type := nat.
Definition handler : Type := nat.
Definition timer : Type := nat.

Inductive level : Type := DEBUG | INFO | WARNING | ERROR.

(** The log records of the module, one constructor per format string. *)
Inductive message : Type :=
| MsgConnected (path : string)               (* "Connected to {path}" *)
| MsgPingOK                                  (* "Ping OK, keeping connection alive..." *)
| MsgParseError (evt : string)               (* "error parsing evt json:{evt}" *)
| MsgExc (e : exn)                           (* the gaierror itself *)
| MsgCancelledError                          (* "cancelled error" *)
| MsgWsClosed (e : exn)                      (* "ws connection closed:{}" *)
| MsgWsException (e : exn)                   (* "ws exception:{}" *)
| MsgReconnecting (path : string) (left wait : Z)
| MsgMaxReconnects (n : Z)                   (* "Max reconnections {} reached:" *)
| MsgCancelling (path : string)              (* "Cancelling {path}" *)
| MsgClosingSocket
| MsgSocketClosed
| MsgCancellingTask
| MsgTaskCancelled
| MsgKeys (new_key : string) (old_key : option string). (* "new key {} old key {}" *)

Section Model.

(** The decoded document, [orjson.loads] ([None] stands for a
    [JSONDecodeError]), the float rounding, the values returned by the
    successive calls of [random()], and [str.lower]. *)
Variable document : Type.
Variable loads : string -> option document.
Variable fl : Q -> Q.
Variable lower : string -> string.

Set Default Proof Using "Type".
Set Proof Using Clear Unused.

Inductive event : Type :=
| Log (l : level) (m : message)
| EnsureFuture (path : string)     (* asyncio.ensure_future(self._run()) *)
| Connect (url : string)           (* connect(ws_url, ...) is entered *)
| Ping (sock : socket)             (* self._socket.ping() *)
| Close (sock : socket)            (* the transport is closed *)
| Call (h : handler) (d : document) (* self._coro(evt_obj) *)
| TaskCancel (path : string)       (* self._conn.cancel() *)
| Sleep (secs : Z)                 (* asyncio.sleep(reconnect_wait) *)
| CallLater (delay : Z) (t : timer) (* loop.call_later(delay, _keepalive_user_socket) *)
| TimerCancel (t : timer)          (* self._user_timer.cancel() *)
| StreamClose (listenKey : string). (* client.stream_close(listenKey=...) *)

Definition trace : Type := list event.

(** ** The session *)

(** Where the task running [_run] is suspended. *)
Inductive await_point : Type :=
| AtStart    (* created by ensure_future, _run not entered yet *)
| AtConnect  (* async with connect(...) *)
| AtRecv     (* await asyncio.wait_for(self._socket.recv(), ...) *)
| AtPing     (* pong = await self._socket.ping() *)
| AtPong     (* await asyncio.wait_for(pong, ...) *)
| AtHandler  (* await self._coro(evt_obj) *)
| AtSleep.   (* await asyncio.sleep(reconnect_wait), inside _reconnect *)

(** The future in [self._conn]. *)
Inductive task : Type :=
| Suspended (p : await_point)
| Finished      (* _run returned *)
| Cancelled.    (* a CancelledError left _run *)

Record ReconnectingWebsocket : Type := {
  _path : string;
  _coro : option handler;   (* None: Python's None *)
  _prefix : string;
  _reconnects : Z;
  _conn : option task;
  _socket : option socket
}.

Definition set_reconnects (n : Z) (s : ReconnectingWebsocket) :=
  {| _path := _path s; _coro := _coro s; _prefix := _prefix s;
     _reconnects := n; _conn := _conn s; _socket := _socket s |}.
Definition set_conn (c : option task) (s : ReconnectingWebsocket) :=
  {| _path := _path s; _coro := _coro s; _prefix := _prefix s;
     _reconnects := _reconnects s; _conn := c; _socket := _socket s |}.
Definition set_socket (k : option socket) (s : ReconnectingWebsocket) :=
  {| _path := _path s; _coro := _coro s; _prefix := _prefix s;
     _reconnects := _reconnects s; _conn := _conn s; _socket := k |}.

Definition suspend (p : await_point) := set_conn (Some (Suspended p)).

(** [_connect]: a new task replaces the one in [self._conn]. *)
Definition _connect (s : ReconnectingWebsocket) : ReconnectingWebsocket * trace :=
  (suspend AtStart s, [EnsureFuture (_path s)]).

(** [__init__]. *)
Definition new_session (path : string) (coro : option handler) (prefix : string)
  : ReconnectingWebsocket * trace :=
  _connect {| _path := path; _coro := coro; _prefix := prefix;
              _reconnects := 0; _conn := None; _socket := None |}.

(** [cancel], with the behaviour of its [await self._conn] as a parameter:
    it depends on who calls (see [cancel_self] and [cancel]). The result is
    the session and the trace the call leaves, and how the call ends: it
    returns, or an exception of the [await] other than [CancelledError]
    leaves it before the last log and before [self._socket = None]. *)
Definition cancel_with
    (await_conn : ReconnectingWebsocket -> ReconnectingWebsocket * trace * result unit)
    (s : ReconnectingWebsocket) : ReconnectingWebsocket * trace * result unit :=
  let t1 := [Log WARNING (MsgCancelling (_path s))] in
  let t2 := match _socket s with
            | Some sock => [Log DEBUG MsgClosingSocket; Close sock; Log DEBUG MsgSocketClosed]
            | None => []
            end in
  match _conn s with
  | Some _ =>
      let '(s1, t, res) := await_conn s in
      let t3 := [TaskCancel (_path s); Log DEBUG MsgCancellingTask] ++ t in
      match res with
      | Returns _ =>
          (set_socket None s1, t1 ++ t2 ++ t3 ++ [Log DEBUG MsgTaskCancelled], Returns tt)
      | Raises e => (s1, t1 ++ t2 ++ t3, Raises e)
      end
  | None =>
      (set_socket None s, t1 ++ t2 ++ [] ++ [Log DEBUG MsgTaskCancelled], Returns tt)
  end.

(** [cancel] called by [_reconnect], that is by the task in [self._conn]
    itself: the task marks itself for cancellation and awaits itself; the
    loop throws the pending [CancelledError] at that [await], where
    [except asyncio.CancelledError: pass] absorbs it, so the call returns:
    the session and the trace it leaves. *)
Definition cancel_self (s : ReconnectingWebsocket) : ReconnectingWebsocket * trace :=
  fst (cancel_with (fun s0 => (s0, [], Returns tt)) s).

(** [_reconnect]; [r] is the value [random()] returns if it is called. The
    task is left suspended in the backoff sleep, or finished when the
    budget is used up. *)
Definition _reconnect (r : Q) (s : ReconnectingWebsocket)
  : ReconnectingWebsocket * trace :=
  let '(s1, t1) := cancel_self s in
  let s2 := set_reconnects (_reconnects s1 + 1) s1 in
  if _reconnects s2 <? MAX_RECONNECTS then
    let reconnect_wait := _get_reconnect_wait fl (_reconnects s2) r in
    (suspend AtSleep s2,
     t1 ++ [Log INFO (MsgReconnecting (_path s2) (MAX_RECONNECTS - _reconnects s2) reconnect_wait);
            Sleep reconnect_wait])
  else
    (set_conn (Some Finished) s2, t1 ++ [Log ERROR (MsgMaxReconnects MAX_RECONNECTS)]).

(** The four [except] clauses that close [_run]. *)
Definition handle_exn (r : Q) (e : exn) (s : ReconnectingWebsocket)
  : ReconnectingWebsocket * trace :=
  let m := match e with
           | gaierror => MsgExc e
           | CancelledError => MsgCancelledError
           | ConnectionClosed => MsgWsClosed e
           | _ => MsgWsException e
           end in
  let '(s1, t1) := _reconnect r s in
  (s1, Log DEBUG m :: t1).

(** An exception leaving the body of [async with connect(...) as _socket]:
    the context manager closes the transport, then the clauses above. *)
Definition leave_body (r : Q) (e : exn) (s : ReconnectingWebsocket)
  : ReconnectingWebsocket * trace :=
  let t0 := match _socket s with Some sock => [Close sock] | None => [] end in
  let '(s1, t1) := handle_exn r e s in
  (s1, t0 ++ t1).

Definition ws_url (s : ReconnectingWebsocket) : string :=
  (STREAM_URL ++ _prefix s ++ _path s)%string.

(** What the event loop delivers to the suspended task. *)
Inductive input : Type :=
| Step                                   (* first step of a new task *)
| Connected (res : result socket)        (* outcome of connect(...) *)
| Received (res : result string)         (* outcome of wait_for(recv()) *)
| PingSent (res : result unit)           (* outcome of ping() *)
| Pong (res : result unit)               (* outcome of wait_for(pong) *)
| Handled (res : result unit)            (* outcome of self._coro(evt_obj) *)
| Slept (res : result unit).             (* outcome of asyncio.sleep *)

(** [_run], from the point where the task is suspended to the next one.
    [None]: the input is not one the task can receive where it is. *)
Definition resume (r : Q) (i : input) (s : ReconnectingWebsocket)
  : option (ReconnectingWebsocket * trace) :=
  match _conn s with
  | Some (Suspended p) =>
      match p, i with
      | AtStart, Step => Some (suspend AtConnect s, [Connect (ws_url s)])
      | AtConnect, Connected (Returns sock) =>
          Some (suspend AtRecv (set_reconnects 0 (set_socket (Some sock) s)),
                [Log WARNING (MsgConnected (_path s))])
      | AtConnect, Connected (Raises e) => Some (handle_exn r e s)
      | AtRecv, Received (Returns evt) =>
          match loads evt with
          | None => Some (suspend AtRecv s, [Log ERROR (MsgParseError evt)])
          | Some evt_obj =>
              match _coro s with
              | Some h => Some (suspend AtHandler s, [Call h evt_obj])
              | None => Some (leave_body r OtherException s) (* TypeError *)
              end
          end
      | AtRecv, Received (Raises TimeoutError)
      | AtRecv, Received (Raises ConnectionClosed) =>
          Some (suspend AtPing s,
                match _socket s with Some sock => [Ping sock] | None => [] end)
      | AtRecv, Received (Raises e) => Some (leave_body r e s)
      | AtPing, PingSent (Returns _) => Some (suspend AtPong s, [])
      | AtPing, PingSent (Raises e) => Some (leave_body r e s)
      | AtPong, Pong (Returns _) => Some (suspend AtRecv s, [Log DEBUG MsgPingOK])
      | AtPong, Pong (Raises e) => Some (leave_body r e s)
      | AtHandler, Handled (Returns _) => Some (suspend AtRecv s, [])
      | AtHandler, Handled (Raises e) => Some (leave_body r e s)
      | AtSleep, Slept (Returns _) => Some (_connect s)
      | AtSleep, Slept (Raises _) => Some (set_conn (Some Cancelled) s, [])
      | _, _ => None
      end
  | _ => None
  end.

(** What the task does with a [CancelledError] thrown into it where it is
    suspended (what the caller that awaits the task sees is [await_conn]).
    A task that has not started never enters [_run]; in the backoff sleep
    the exception leaves [_reconnect] and [_run]. *)
Definition throw_cancelled (r : Q) (p : await_point) (s : ReconnectingWebsocket)
  : ReconnectingWebsocket * trace :=
  match p with
  | AtStart | AtSleep => (set_conn (Some Cancelled) s, [])
  | AtConnect => handle_exn r CancelledError s
  | AtRecv | AtPing | AtPong | AtHandler => leave_body r CancelledError s
  end.

(** [await self._conn] in a [cancel] called from outside the task, after
    [self._conn.cancel()].
    - A task in its backoff sleep has awaited itself in the [cancel] of
      [_reconnect], which leaves the task marked as awaited: a second
      [await] on it raises [RuntimeError] at once. The cancelled sleep ends
      the task.
    - Any other running task is awaited until it is done: it runs its
      [except asyncio.CancelledError] clause, and the caller is resumed only
      after the backoff sleep of [_reconnect] and its [self._connect()], the
      new task having taken its first step.
    - A task that is done is not awaited; its [CancelledError], if any, is
      absorbed. *)
Definition await_conn (r : Q) (s : ReconnectingWebsocket)
  : ReconnectingWebsocket * trace * result unit :=
  match _conn s with
  | Some (Suspended AtSleep) =>
      let '(s1, t1) := throw_cancelled r AtSleep s in
      (s1, t1, Raises RuntimeError)
  | Some (Suspended p) =>
      let '(s1, t1) := throw_cancelled r p s in
      match _conn s1 with
      | Some (Suspended AtSleep) =>
          let '(s2, t2) := _connect s1 in
          (suspend AtConnect s2, t1 ++ t2 ++ [Connect (ws_url s2)], Returns tt)
      | _ => (s1, t1, Returns tt)
      end
  | _ => (s, [], Returns tt)
  end.

(** [cancel], called by the manager. *)
Definition cancel (r : Q)
  : ReconnectingWebsocket -> ReconnectingWebsocket * trace * result unit :=
  cancel_with (await_conn r).

(** ** Python dicts with string keys, in insertion order *)

Definition dict (V : Type) : Type := list (string * V).

Definition dict_keys {V : Type} (d : dict V) : list string := map fst d.

Fixpoint dict_get {V : Type} (k : string) (d : dict V) : option V :=
  match d with
  | [] => None
  | (k', v) :: d' => if String.eqb k k' then Some v else dict_get k d'
  end.

(** [k in d] *)
Definition dict_mem {V : Type} (k : string) (d : dict V) : bool :=
  match dict_get k d with Some _ => true | None => false end.

(** [d[k] = v]: a present key keeps its place, a new one goes last. *)
Fixpoint dict_set {V : Type} (k : string) (v : V) (d : dict V) : dict V :=
  match d with
  | [] => [(k, v)]
  | (k', v') :: d' =>
      if String.eqb k k' then (k', v) :: d' else (k', v') :: dict_set k v d'
  end.

(** [del d[k]], for a present key. *)
Fixpoint dict_del {V : Type} (k : string) (d : dict V) : dict V :=
  match d with
  | [] => []
  | (k', v') :: d' =>
      if String.eqb k k' then d' else (k', v') :: dict_del k d'
  end.

(** ** The manager *)

Definition _user_timeout : Z := 30 * 60.

Record BinanceSocketManager : Type := {
  _conns : dict ReconnectingWebsocket;
  _user_timer : option timer;
  _user_listen_key : option string;
  _user_callback : option handler
}.

(** [__init__]. *)
Definition new_manager : BinanceSocketManager :=
  {| _conns := []; _user_timer := None; _user_listen_key := None;
     _user_callback := None |}.

Definition set_conns (d : dict ReconnectingWebsocket) (m : BinanceSocketManager) :=
  {| _conns := d; _user_timer := _user_timer m;
     _user_listen_key := _user_listen_key m; _user_callback := _user_callback m |}.
Definition set_user_timer (t : option timer) (m : BinanceSocketManager) :=
  {| _conns := _conns m; _user_timer := t;
     _user_listen_key := _user_listen_key m; _user_callback := _user_callback m |}.
Definition set_user_listen_key (k : option string) (m : BinanceSocketManager) :=
  {| _conns := _conns m; _user_timer := _user_timer m;
     _user_listen_key := k; _user_callback := _user_callback m |}.
Definition set_user_callback (c : option handler) (m : BinanceSocketManager) :=
  {| _conns := _conns m; _user_timer := _user_timer m;
     _user_listen_key := _user_listen_key m; _user_callback := c |}.

(** Truth value of an [Optional[str]]: [None] and the empty string are
    false. *)
Definition truthy (k : option string) : bool :=
  match k with
  | None => false
  | Some k' => negb (String.eqb k' "")
  end.

(** [len(conn_key) >= 60 and conn_key[:60] == self._user_listen_key] *)
Definition is_user_conn (conn_key : string) (user_listen_key : option string) : bool :=
  (60 <=? String.length conn_key)%nat &&
  match user_listen_key with
  | Some k => String.eqb (substring 0 60 conn_key) k
  | None => false
  end.

(** [_start_socket] *)
Definition _start_socket (path : string) (coro : option handler) (prefix : string)
    (m : BinanceSocketManager) : option string * BinanceSocketManager * trace :=
  if dict_mem path (_conns m) then (None, m, [])
  else
    let '(s, t) := new_session path coro prefix in
    (Some path, set_conns (dict_set path s (_conns m)) m, t).

(** [start_trade_socket] *)
Definition start_trade_socket (symbol : string) (coro : handler)
    (m : BinanceSocketManager) : string * BinanceSocketManager * trace :=
  let path := (lower symbol ++ "@trade")%string in
  let '(_, m1, t) := _start_socket path (Some coro) "ws/" m in
  (path, m1, t).





(** [start_multiplex_socket] *)
Definition start_multiplex_socket (streams : list string) (coro : handler)
    (m : BinanceSocketManager) : string * BinanceSocketManager * trace :=
  let path := ("streams=" ++ String.concat "/" streams)%string in
  let '(_, m1, t) := _start_socket path (Some coro) "stream?" m in
  (path, m1, t).

(** [_start_user_timer]; [h] is the handle [call_later] returns. *)
Definition _start_user_timer (h : timer) (m : BinanceSocketManager)
    : BinanceSocketManager * trace :=
  (set_user_timer (Some h) m, [CallLater _user_timeout h]).

(** [_stop_user_socket] *)
Definition _stop_user_socket (m : BinanceSocketManager) : BinanceSocketManager * trace :=
  if negb (truthy (_user_listen_key m)) then (m, [])
  else
    let t1 := match _user_timer m with
              | Some h => [TimerCancel h]
              | None => []
              end in
    let m1 := set_user_timer None m in
    let t2 := match _user_listen_key m1 with
              | Some k => [StreamClose k]
              | None => []
              end in
    (set_user_listen_key None m1, t1 ++ t2).

(** [stop_socket]; [r] is what [random()] returns if the cancelled task
    draws a backoff delay. When [cancel] raises, the call ends there: the
    session stays registered, as [cancel] left it. *)
Definition stop_socket (r : Q) (conn_key : string) (m : BinanceSocketManager)
    : BinanceSocketManager * trace * result unit :=
  match dict_get conn_key (_conns m) with
  | None => (m, [], Returns tt)
  | Some s =>
      let '(s1, t1, res) := cancel r s in
      match res with
      | Raises e => (set_conns (dict_set conn_key s1 (_conns m)) m, t1, Raises e)
      | Returns _ =>
          let m1 := set_conns (dict_del conn_key (_conns m)) m in
          if is_user_conn conn_key (_user_listen_key m1) then
            let '(m2, t2) := _stop_user_socket m1 in (m2, t1 ++ t2, Returns tt)
          else (m1, t1, Returns tt)
      end
  end.

(** [_start_user_socket]. The [for] loop stops the first key of the dict
    that passes the test, and breaks; an exception of that [stop_socket]
    ends the call. *)
Definition _start_user_socket (r : Q) (h : timer) (user_listen_key : string)
    (callback : option handler) (m : BinanceSocketManager)
    : BinanceSocketManager * trace * result (option string) :=
  let '(m1, t1, res) :=
    if truthy (_user_listen_key m) then
      match find (fun conn_key => is_user_conn conn_key (_user_listen_key m))
                 (dict_keys (_conns m)) with
      | Some conn_key => stop_socket r conn_key m
      | None => (m, [], Returns tt)
      end
    else (m, [], Returns tt) in
  match res with
  | Raises e => (m1, t1, Raises e)
  | Returns _ =>
      let m2 := set_user_callback callback
                  (set_user_listen_key (Some user_listen_key) m1) in
      let '(conn_key, m3, t2) := _start_socket user_listen_key callback "ws/" m2 in
      if truthy conn_key then
        let '(m4, t3) := _start_user_timer h m3 in
        (m4, t1 ++ t2 ++ t3, Returns conn_key)
      else (m3, t1 ++ t2, Returns conn_key)
  end.

(** [start_user_socket]; [user_listen_key] is what
    [client.stream_get_listen_key()] returns. *)
Definition start_user_socket (r : Q) (h : timer) (user_listen_key : string)
    (coro : handler) (m : BinanceSocketManager)
    : BinanceSocketManager * trace * result (option string) :=
  _start_user_socket r h user_listen_key (Some coro) m.

(** [_keepalive_user_socket]: the body of its inner coroutine, which the
    timer schedules; [user_listen_key] is what
    [client.stream_get_listen_key()] returns. An exception ends the
    coroutine. *)
Definition _keepalive_user_socket (r : Q) (h : timer) (user_listen_key : string)
    (m : BinanceSocketManager) : BinanceSocketManager * trace * result unit :=
  let t0 := [Log DEBUG (MsgKeys user_listen_key (_user_listen_key m))] in
  if match _user_listen_key m with
     | Some k => negb (String.eqb user_listen_key k)
     | None => true
     end
  then
    let '(m1, t1, res) :=
      _start_user_socket r h user_listen_key (_user_callback m) m in
    match res with
    | Returns _ => (m1, t0 ++ t1, Returns tt)
    | Raises e => (m1, t0 ++ t1, Raises e)
    end
  else
    let '(m1, t1) := _start_user_timer h m in
    (m1, t0 ++ t1, Returns tt).

(** The [for key in keys] loop of [close]; an exception of a [stop_socket]
    ends it. *)
Fixpoint stop_each (draw : string -> Q) (keys : list string) (m : BinanceSocketManager)
    : BinanceSocketManager * trace * result unit :=
  match keys with
  | [] => (m, [], Returns tt)
  | key :: keys' =>
      let '(m1, t1, res) := stop_socket (draw key) key m in
      match res with
      | Raises e => (m1, t1, Raises e)
      | Returns _ =>
          let '(m2, t2, res2) := stop_each draw keys' m1 in
          (m2, t1 ++ t2, res2)
      end
  end.

(** [close]. [keys] is [set(self._conns.keys())] in the order the [for]
    loop visits it (a set has no specified order); [draw key] is what
    [random()] returns while [key] is stopped. An exception of the loop
    leaves [close] before [self._conns = {}]. *)
Definition close (draw : string -> Q) (keys : list string) (m : BinanceSocketManager)
    : BinanceSocketManager * trace * result unit :=
  let '(m1, t, res) := stop_each draw keys m in
  match res with
  | Returns _ => (set_conns [] m1, t, Returns tt)
  | Raises e => (m1, t, Raises e)
  end.

(** The task fed with a script of inputs, each with the value [random()]
    returns if drawn while it is handled. *)
Fixpoint run (script : list (Q * input)) (s : ReconnectingWebsocket)
    : option (ReconnectingWebsocket * trace) :=
  match script with
  | [] => Some (s, [])
  | (r, i) :: script' =>
      match resume r i s with
      | Some (s1, t1) =>
          match run script' s1 with
          | Some (s2, t2) => Some (s2, t1 ++ t2)
          | None => None
          end
      | None => None
      end
  end.

(** ** The rest of the module *)

(** [send_ping] *)
Definition send_ping (s : ReconnectingWebsocket) : trace :=
  match _socket s with
  | Some sock => [Ping sock]
  | None => []
  end.

(** [str(n)] for an int: decimal digits, with a minus sign below zero. *)
Definition py_str_int (z : Z) : string := NilEmpty.string_of_int (Z.to_int z).

(** The values the callers pass for [depth] and [update_time]: [None], an
    int or a str. *)
Inductive py_value : Type :=
| PyNone
| PyInt (z : Z)
| PyStr (v : string).

(** Truth value: [None], [0] and the empty string are false. *)
Definition py_truthy (v : py_value) : bool :=
  match v with
  | PyNone => false
  | PyInt z => negb (z =? 0)
  | PyStr v' => negb (String.eqb v' "")
  end.

(** [v != c] for a str [c]: only an equal str is equal. *)
Definition py_ne_str (v : py_value) (c : string) : bool :=
  match v with
  | PyStr v' => negb (String.eqb v' c)
  | _ => true
  end.

(** ["{}".format(v)] *)
Definition py_format (v : py_value) : string :=
  match v with
  | PyNone => "None"
  | PyInt z => py_str_int z
  | PyStr v' => v'
  end.

(** [start_depth_socket] *)
Definition start_depth_socket (symbol : string) (coro : handler) (depth : py_value)
    (m : BinanceSocketManager) : string * BinanceSocketManager * trace :=
  let socket_name := (lower symbol ++ "@depth")%string in
  let socket_name :=
    if py_truthy depth && py_ne_str depth "1"
    then (socket_name ++ py_format depth)%string
    else socket_name in
  let '(_, m1, t) := _start_socket socket_name (Some coro) "ws/" m in
  (socket_name, m1, t).

(** [start_miniticker_socket] *)
Definition start_miniticker_socket (coro : handler) (update_time : py_value)
    (m : BinanceSocketManager) : string * BinanceSocketManager * trace :=
  let path := ("!miniTicker@arr@" ++ py_format update_time ++ "ms")%string in
  let '(_, m1, t) :=
    _start_socket ("!miniTicker@arr@" ++ py_format update_time ++ "ms")%string
                  (Some coro) "ws/" m in
  (path, m1, t).

(** ** Invariants and scripts used in the statements *)


Definition has_socket (s : ReconnectingWebsocket) : bool :=
  match _socket s with Some _ => true | None => false end.

(** What holds of a session between two steps of its task: the counter is
    0 while the session is connected and within the budget otherwise, and a
    transport handle is held exactly while connected. *)
Definition session_ok (s : ReconnectingWebsocket) : bool :=
  match _conn s with
  | Some (Suspended AtStart) | Some (Suspended AtConnect) | Some Cancelled =>
      (0 <=? _reconnects s) && (_reconnects s <? MAX_RECONNECTS) && negb (has_socket s)
  | Some (Suspended AtSleep) =>
      (1 <=? _reconnects s) && (_reconnects s <? MAX_RECONNECTS) && negb (has_socket s)
  | Some (Suspended _) => (_reconnects s =? 0) && has_socket s
  | Some Finished => (_reconnects s =? MAX_RECONNECTS) && negb (has_socket s)
  | None => false
  end.

(** Failed connects in a row: each raises its exception, sleeps its backoff
    and starts the next task. *)
Fixpoint failures (l : list (Q * exn)) : list (Q * input) :=
  match l with
  | [] => []
  | (r, e) :: l' =>
      (r, Connected (Raises e)) :: (r, Slept (Returns tt)) :: (r, Step) :: failures l'
  end.

Definition is_sleep (ev : event) : bool :=
  match ev with Sleep _ => true | _ => false end.

Definition is_task (ev : event) : bool :=
  match ev with EnsureFuture _ => true | _ => false end.

(** The draws of a script lie in [0, 1]. *)
Definition draws_ok (script : list (Q * input)) : Prop :=
  Forall (fun ri => (0 <= fst ri)%Q /\ (fst ri <= 1)%Q) script.

(** A registry is keyed by the paths of its sessions, each at most once. *)
Definition registry_ok (m : BinanceSocketManager) : Prop :=
  NoDup (dict_keys (_conns m))
  /\ forall k s, dict_get k (_conns m) = Some s -> _path s = k.

(** ** Sample sessions *)

(** A session whose task is inside [connect(...)]: no transport yet. *)
Definition connecting_session : ReconnectingWebsocket :=
  {| _path := "btcusdt@trade"; _coro := Some 1%nat; _prefix := "ws/";
     _reconnects := 0; _conn := Some (Suspended AtConnect); _socket := None |}.

(** A connected session waiting for a frame on transport 7. *)
Definition live_session : ReconnectingWebsocket :=
  {| _path := "btcusdt@trade"; _coro := Some 1%nat; _prefix := "ws/";
     _reconnects := 0; _conn := Some (Suspended AtRecv); _socket := Some 7%nat |}.

(** A session awaiting its handler. *)
Definition handling_session : ReconnectingWebsocket :=
  set_conn (Some (Suspended AtHandler)) live_session.

(** A session whose last attempt was the 19th reconnect. *)
Definition worn_session : ReconnectingWebsocket :=
  set_reconnects 19 connecting_session.

(** A session whose first connect failed, in the backoff sleep of its
    first reconnect. *)
Definition sleeping_session : ReconnectingWebsocket :=
  {| _path := "ethusdt@trade"; _coro := Some 2%nat; _prefix := "ws/";
     _reconnects := 1; _conn := Some (Suspended AtSleep); _socket := None |}.

(** Two failed connects, each followed by its backoff sleep and the first
    step of the new task. *)
Definition faulty_script : list (Q * input) :=
  [(1 # 2, Connected (Raises gaierror)); (1 # 2, Slept (Returns tt)); (1 # 2, Step);
   (1 # 4, Connected (Raises TimeoutError)); (1 # 4, Slept (Returns tt)); (1 # 4, Step)].

(** ** Sample managers *)

(** Two listen keys of 60 characters and two of 64. *)
Definition key60 : string :=
  "abcdefghijklmnopqrstuvwxyzabcdefghijklmnopqrstuvwxyz01234567".
Definition key60' : string :=
  "ABCDEFGHIJKLMNOPQRSTUVWXYZABCDEFGHIJKLMNOPQRSTUVWXYZ01234567".
Definition key64 : string :=
  "pqia91ma19a5s61cv6a81va65sdf19v8a65a1a5s61cv6a81va65sdf19v8a65a1".
Definition key64' : string :=
  "x3ia91ma19a5s61cv6a81va65sdf19v8a65a1a5s61cv6a81va65sdf19v8a65a1".

(** The connected session of the user stream under listen key [k]. *)
Definition user_session (k : string) : ReconnectingWebsocket :=
  {| _path := k; _coro := Some 5%nat; _prefix := "ws/";
     _reconnects := 0; _conn := Some (Suspended AtRecv); _socket := Some 9%nat |}.

(** A manager after [start_trade_socket("BTCUSDT", 1)] and
    [start_user_socket(5)] under listen key [k], both streams connected. *)
Definition user_manager (k : string) : BinanceSocketManager :=
  {| _conns := [("btcusdt@trade"%string, live_session); (k, user_session k)];
     _user_timer := Some 1%nat;
     _user_listen_key := Some k;
     _user_callback := Some 5%nat |}.

(** A manager with a connected stream and one in its backoff sleep. *)
Definition sleepy_manager : BinanceSocketManager :=
  {| _conns := [("btcusdt@trade"%string, live_session);
                ("ethusdt@trade"%string, sleeping_session)];
     _user_timer := None; _user_listen_key := None; _user_callback := None |}.

(** ** Properties of the session *)

Arguments cancel_self : simpl never.

Ltac fields :=
  cbn [fst snd _conn _reconnects _socket _path _coro _prefix
       suspend set_conn set_reconnects set_socket] in *.
Arguments _get_reconnect_wait : simpl never.

Lemma suspend_same (p : await_point) (s : ReconnectingWebsocket) :
  _conn s = Some (Suspended p) -> suspend p s = s.
Proof. destruct s; simpl; intros ->; reflexivity. Qed.

Lemma cancel_self_fields (s : ReconnectingWebsocket) :
  let s' := fst (cancel_self s) in
  _socket s' = None /\ _reconnects s' = _reconnects s /\ _conn s' = _conn s
  /\ _path s' = _path s /\ _coro s' = _coro s.
Proof.
  unfold cancel_self, cancel_with. destruct (_conn s) eqn:E; simpl; rewrite ?E; auto.
Qed.

Lemma cancel_self_trace (s : ReconnectingWebsocket) :
  (forall sock, _socket s = Some sock -> In (Close sock) (snd (cancel_self s)))
  /\ (forall p, ~ In (EnsureFuture p) (snd (cancel_self s))).
Proof.
  unfold cancel_self, cancel_with.
  destruct (_conn s), (_socket s); simpl; split; intros;
    try match goal with H : Some _ = Some _ |- _ => inversion H; subst end;
    try discriminate; intuition discriminate.
Qed.

Lemma reconnect_below (r : Q) (s : ReconnectingWebsocket) :
  _reconnects s + 1 < MAX_RECONNECTS ->
  let w := _get_reconnect_wait fl (_reconnects s + 1) r in
  _reconnect r s =
    (suspend AtSleep (set_reconnects (_reconnects s + 1) (fst (cancel_self s))),
     snd (cancel_self s)
       ++ [Log INFO (MsgReconnecting (_path s) (MAX_RECONNECTS - (_reconnects s + 1)) w);
           Sleep w]).
Proof.
  intros H. unfold _reconnect.
  destruct (cancel_self_fields s) as (_ & Hr & _ & Hp & _).
  destruct (cancel_self s) as [s1 t1]. simpl in *. rewrite Hr, Hp.
  apply Z.ltb_lt in H. rewrite H. reflexivity.
Qed.

Lemma reconnect_exhausted (r : Q) (s : ReconnectingWebsocket) :
  MAX_RECONNECTS <= _reconnects s + 1 ->
  _reconnect r s =
    (set_conn (Some Finished) (set_reconnects (_reconnects s + 1) (fst (cancel_self s))),
     snd (cancel_self s) ++ [Log ERROR (MsgMaxReconnects MAX_RECONNECTS)]).
Proof.
  intros H. unfold _reconnect.
  destruct (cancel_self_fields s) as (_ & Hr & _ & Hp & _).
  destruct (cancel_self s) as [s1 t1]. simpl in *. rewrite Hr.
  apply Z.ltb_ge in H. rewrite H. reflexivity.
Qed.

Lemma reconnect_no_task (r : Q) (s : ReconnectingWebsocket) (p : string) :
  ~ In (EnsureFuture p) (snd (_reconnect r s)).
Proof.
  destruct (cancel_self_trace s) as [_ Hn].
  destruct (Z_lt_le_dec (_reconnects s + 1) MAX_RECONNECTS) as [H | H].
  - rewrite (reconnect_below r s H). simpl. rewrite in_app_iff.
    intros [Hi | [Hi | [Hi | []]]]; try discriminate. exact (Hn p Hi).
  - rewrite (reconnect_exhausted r s H). simpl. rewrite in_app_iff.
    intros [Hi | [Hi | []]]; try discriminate. exact (Hn p Hi).
Qed.

Lemma reconnect_fields (r : Q) (s : ReconnectingWebsocket) :
  _socket (fst (_reconnect r s)) = None
  /\ _reconnects (fst (_reconnect r s)) = _reconnects s + 1
  /\ _path (fst (_reconnect r s)) = _path s
  /\ (_conn (fst (_reconnect r s)) = Some (Suspended AtSleep)
      \/ _conn (fst (_reconnect r s)) = Some Finished).
Proof.
  destruct (cancel_self_fields s) as (Hs & Hr & _ & Hp & _).
  destruct (Z_lt_le_dec (_reconnects s + 1) MAX_RECONNECTS) as [H | H];
    [rewrite (reconnect_below r s H) | rewrite (reconnect_exhausted r s H)];
    fields; auto.
Qed.

(** C5: [_reconnect] increments the counter first; below the budget of 20
    the task sleeps the backoff delay and the end of that sleep schedules the
    new connect; at the budget it logs the terminal error, schedules
    nothing, and the finished task answers no input and no [cancel]. *)
Theorem reconnect_budget (r : Q) (s : ReconnectingWebsocket) :
  let s' := fst (_reconnect r s) in
  let t := snd (_reconnect r s) in
  _reconnects s' = _reconnects s + 1
  /\ (forall p, ~ In (EnsureFuture p) t)
  /\ (_reconnects s' < MAX_RECONNECTS ->
      In (Sleep (_get_reconnect_wait fl (_reconnects s') r)) t
      /\ _conn s' = Some (Suspended AtSleep)
      /\ forall r', resume r' (Slept (Returns tt)) s'
                    = Some (suspend AtStart s', [EnsureFuture (_path s)]))
  /\ (MAX_RECONNECTS <= _reconnects s' ->
      In (Log ERROR (MsgMaxReconnects MAX_RECONNECTS)) t
      /\ (forall w, ~ In (Sleep w) t)
      /\ _conn s' = Some Finished
      /\ (forall r' i, resume r' i s' = None)
      /\ (forall r', _conn (fst (fst (cancel r' s'))) = Some Finished
                     /\ forall p, ~ In (EnsureFuture p) (snd (fst (cancel r' s'))))).
Proof.
  intros s' t.
  assert (Hc : _reconnects s' = _reconnects s + 1).
  { subst s'. destruct (cancel_self_fields s) as (_ & Hr & _).
    destruct (Z_lt_le_dec (_reconnects s + 1) MAX_RECONNECTS) as [H | H].
    - rewrite (reconnect_below r s H). reflexivity.
    - rewrite (reconnect_exhausted r s H). reflexivity. }
  split; [exact Hc |].
  split; [intros p; apply reconnect_no_task |].
  split; intros Hb; rewrite Hc in Hb.
  - subst s' t. rewrite (reconnect_below r s Hb) in *. fields.
    destruct (cancel_self_fields s) as (_ & Hr & _ & Hp & _).
    repeat split.
    + rewrite in_app_iff. right. right. left. reflexivity.
    + intros r'. unfold resume. fields. unfold _connect. fields.
      rewrite Hp. reflexivity.
  - subst s' t. rewrite (reconnect_exhausted r s Hb) in *. fields.
    destruct (cancel_self_trace s) as [_ Hn]. repeat split.
    + rewrite in_app_iff. right. left. reflexivity.
    + intros w. rewrite in_app_iff. intros [Hi | [Hi | []]]; [| discriminate].
      revert Hi. unfold cancel_self, cancel_with.
      destruct (_conn s), (_socket s); cbn; intuition discriminate.
    + intros p. unfold cancel, cancel_with, await_conn. fields.
      destruct (_socket (fst (cancel_self s))); cbn; intuition discriminate.
Qed.

(** C6: whatever inputs came before, once the task is inside [connect] a
    successful connect is accepted, leaves the counter at exactly 0 and
    enters the receive loop on the new transport. *)
Theorem connect_resets_counter (script : list (Q * input)) (r : Q) (sock : socket)
    (s s1 : ReconnectingWebsocket) (t1 : trace) :
  run script s = Some (s1, t1) ->
  _conn s1 = Some (Suspended AtConnect) ->
  exists s2 t2,
    run (script ++ [(r, Connected (Returns sock))]) s = Some (s2, t1 ++ t2)
    /\ _reconnects s2 = 0
    /\ _conn s2 = Some (Suspended AtRecv)
    /\ _socket s2 = Some sock.
Proof.
  revert s t1. induction script as [| [r0 i0] script IH]; intros s t1 Hrun Hc.
  - simpl in Hrun. inversion Hrun; subst s1 t1. simpl. unfold resume. rewrite Hc.
    eexists _, _. split; [reflexivity |]. simpl. auto.
  - simpl in Hrun. destruct (resume r0 i0 s) as [[sa ta] |] eqn:E; [| discriminate].
    destruct (run script sa) as [[sb tb] |] eqn:E2; [| discriminate].
    inversion Hrun; subst s1 t1.
    destruct (IH sa tb E2 Hc) as (s2 & t2 & H1 & H2).
    exists s2, t2. simpl. rewrite E, H1. rewrite app_assoc. auto.
Qed.

(** C7: a frame that does not decode is logged and dropped: the handler is
    not called, nothing is closed, and the session is left exactly as it
    was, waiting for the next frame on the same transport. *)
Theorem decode_failure_continues (r : Q) (evt : string) (s : ReconnectingWebsocket) :
  _conn s = Some (Suspended AtRecv) ->
  loads evt = None ->
  resume r (Received (Returns evt)) s = Some (s, [Log ERROR (MsgParseError evt)]).
Proof.
  intros Hc Hl. unfold resume. rewrite Hc, Hl.
  now rewrite (suspend_same AtRecv s Hc).
Qed.

(** C8: an exception raised by the handler leaves the receive loop: the
    transport is closed and [_reconnect] runs; the task does not wait for a
    frame on that connection again. *)
Theorem handler_fault_reconnects (r : Q) (e : exn) (s : ReconnectingWebsocket) :
  _conn s = Some (Suspended AtHandler) ->
  exists t0,
    resume r (Handled (Raises e)) s
      = Some (fst (_reconnect r s), t0 ++ snd (_reconnect r s))
    /\ (forall sock, _socket s = Some sock -> In (Close sock) t0)
    /\ _socket (fst (_reconnect r s)) = None
    /\ _reconnects (fst (_reconnect r s)) = _reconnects s + 1
    /\ (_conn (fst (_reconnect r s)) = Some (Suspended AtSleep)
        \/ _conn (fst (_reconnect r s)) = Some Finished).
Proof.
  intros Hc. unfold resume. rewrite Hc. unfold leave_body, handle_exn.
  destruct (reconnect_fields r s) as (Hs & Hr & _ & Hk).
  destruct (_reconnect r s) as [s1 t1]. fields.
  eexists (_ ++ [_]). split; [rewrite <- app_assoc; reflexivity |].
  split; [| auto].
  intros sock ->. rewrite in_app_iff. left. left. reflexivity.
Qed.

(** What the [await self._conn] of a [cancel] from outside waits for, the
    task being inside [_run] with budget left: the whole of [_reconnect],
    and the first step of the task it creates. *)
Lemma await_conn_running (r : Q) (p : await_point) (s : ReconnectingWebsocket) :
  _conn s = Some (Suspended p) ->
  p <> AtStart -> p <> AtSleep ->
  _reconnects s + 1 < MAX_RECONNECTS ->
  exists t0,
    await_conn r s
    = (suspend AtConnect
         (suspend AtStart
            (suspend AtSleep
               (set_reconnects (_reconnects s + 1) (fst (cancel_self s))))),
       t0 ++ [EnsureFuture (_path s)] ++ [Connect (ws_url s)], Returns tt).
Proof.
  intros Hc Hp1 Hp2 Hb.
  destruct (cancel_self_fields s) as (_ & Hr & _ & Hp & _).
  assert (Hx : _prefix (fst (cancel_self s)) = _prefix s).
  { unfold cancel_self, cancel_with. destruct (_conn s); reflexivity. }
  assert (Ht : exists t0, throw_cancelled r p s =
            (suspend AtSleep (set_reconnects (_reconnects s + 1) (fst (cancel_self s))), t0)).
  { destruct p; try congruence; unfold throw_cancelled, leave_body, handle_exn;
      rewrite (reconnect_below r s Hb); eexists; reflexivity. }
  destruct Ht as [t0 Ht]. exists t0.
  unfold await_conn. rewrite Hc.
  destruct p; try congruence; rewrite Ht; unfold _connect, ws_url; fields;
    rewrite Hp, Hx; reflexivity.
Qed.

(** The events of that [cancel]. *)
Lemma cancel_running_trace (r : Q) (p : await_point) (s : ReconnectingWebsocket) :
  _conn s = Some (Suspended p) ->
  p <> AtStart -> p <> AtSleep ->
  _reconnects s + 1 < MAX_RECONNECTS ->
  In (TaskCancel (_path s)) (snd (fst (cancel r s)))
  /\ In (EnsureFuture (_path s)) (snd (fst (cancel r s)))
  /\ In (Connect (ws_url s)) (snd (fst (cancel r s))).
Proof.
  intros Hc Hp1 Hp2 Hb.
  destruct (await_conn_running r p s Hc Hp1 Hp2 Hb) as [t0 Ha].
  unfold cancel, cancel_with. rewrite Hc, Ha. cbn [fst snd].
  rewrite !in_app_iff. cbn [In]. tauto.
Qed.

(** C1, on the code: a [cancel] from outside reaches a task that is inside
    [connect], the receive loop or the handler as a [CancelledError], which
    [_run] answers with [_reconnect]: when [cancel] returns, and it returns
    normally, the counter has grown by one, a new connect task has been
    scheduled and that task is opening the stream's URL. *)
Theorem cancel_schedules_reconnect (r : Q) (p : await_point)
    (s : ReconnectingWebsocket) :
  _conn s = Some (Suspended p) ->
  p <> AtStart -> p <> AtSleep ->
  _reconnects s + 1 < MAX_RECONNECTS ->
  In (EnsureFuture (_path s)) (snd (fst (cancel r s)))
  /\ _conn (fst (fst (cancel r s))) = Some (Suspended AtConnect)
  /\ _reconnects (fst (fst (cancel r s))) = _reconnects s + 1
  /\ _socket (fst (fst (cancel r s))) = None
  /\ In (Connect (ws_url s)) (snd (fst (cancel r s)))
  /\ snd (cancel r s) = Returns tt.
Proof.
  intros Hc Hp1 Hp2 Hb.
  destruct (await_conn_running r p s Hc Hp1 Hp2 Hb) as [t0 Ha].
  unfold cancel, cancel_with. rewrite Hc, Ha. fields.
  split; [| split; [reflexivity | split; [reflexivity | split; [reflexivity | split]]]].
  - rewrite !in_app_iff. right. right. left. right. right. left. left. reflexivity.
  - rewrite !in_app_iff. right. right. left. right. right. right. left. reflexivity.
  - reflexivity.
Qed.

(** ** Properties of dicts *)

Lemma dict_get_in {V : Type} (k : string) (d : dict V) (v : V) :
  dict_get k d = Some v -> In k (dict_keys d).
Proof.
  induction d as [| [k' v'] d IH]; simpl; [discriminate |].
  destruct (String.eqb_spec k k'); auto.
Qed.

Lemma dict_get_none {V : Type} (k : string) (d : dict V) :
  dict_get k d = None -> ~ In k (dict_keys d).
Proof.
  induction d as [| [k' v'] d IH]; simpl; [tauto |].
  destruct (String.eqb_spec k k'); [discriminate |].
  intros H [E | Hi]; [congruence | exact (IH H Hi)].
Qed.

Lemma dict_del_keys {V : Type} (k c : string) (d : dict V) :
  In c (dict_keys (dict_del k d)) -> In c (dict_keys d).
Proof.
  induction d as [| [k' v'] d IH]; simpl; [tauto |].
  destruct (String.eqb_spec k k'); simpl; tauto.
Qed.

Lemma dict_del_nodup {V : Type} (k : string) (d : dict V) :
  NoDup (dict_keys d) ->
  NoDup (dict_keys (dict_del k d)) /\ ~ In k (dict_keys (dict_del k d)).
Proof.
  induction d as [| [k' v'] d IH]; simpl; intros Hn.
  - split; [constructor | tauto].
  - inversion Hn as [| ? ? Hk Hd]; subst.
    destruct (String.eqb_spec k k') as [-> | Hne]; [tauto |].
    destruct (IH Hd) as [H1 H2]. simpl. split.
    + constructor; [| exact H1]. intros Hi. apply Hk. eapply dict_del_keys; eauto.
    + intros [E | Hi]; [congruence | tauto].
Qed.

Lemma dict_get_del_other {V : Type} (k c : string) (d : dict V) :
  c <> k -> dict_get c (dict_del k d) = dict_get c d.
Proof.
  intros Hne. induction d as [| [k' v'] d IH]; simpl; [reflexivity |].
  destruct (String.eqb_spec k k') as [-> | H1]; simpl.
  - destruct (String.eqb_spec c k'); [contradiction | reflexivity].
  - destruct (String.eqb_spec c k'); [reflexivity | exact IH].
Qed.

Lemma dict_get_absent {V : Type} (k : string) (d : dict V) :
  ~ In k (dict_keys d) -> dict_get k d = None.
Proof.
  induction d as [| [k' v'] d IH]; simpl; [reflexivity |].
  intros H. destruct (String.eqb_spec k k'); [subst; tauto | apply IH; tauto].
Qed.

Lemma dict_get_set_same {V : Type} (k : string) (v : V) (d : dict V) :
  dict_get k (dict_set k v d) = Some v.
Proof.
  induction d as [| [k' v'] d IH]; simpl.
  - now rewrite String.eqb_refl.
  - destruct (String.eqb_spec k k') as [-> | H1]; simpl.
    + now rewrite String.eqb_refl.
    + destruct (String.eqb_spec k k'); [contradiction | exact IH].
Qed.

Lemma dict_get_set_other {V : Type} (k c : string) (v : V) (d : dict V) :
  c <> k -> dict_get c (dict_set k v d) = dict_get c d.
Proof.
  intros Hne. induction d as [| [k' v'] d IH]; simpl.
  - destruct (String.eqb_spec c k); [contradiction | reflexivity].
  - destruct (String.eqb_spec k k') as [-> | H1]; simpl.
    + destruct (String.eqb_spec c k'); [contradiction | reflexivity].
    + destruct (String.eqb_spec c k'); [reflexivity | exact IH].
Qed.

Lemma dict_set_keys_present {V : Type} (k : string) (v : V) (d : dict V) :
  dict_get k d <> None -> dict_keys (dict_set k v d) = dict_keys d.
Proof.
  unfold dict_keys. induction d as [| [k' v'] d IH]; cbn; [congruence |].
  destruct (String.eqb_spec k k'); [reflexivity |].
  intros H. cbn. now rewrite (IH H).
Qed.

(** ** Properties of the manager *)

Lemma start_socket_registered (path : string) (coro : option handler)
    (prefix : string) (m : BinanceSocketManager) (s : ReconnectingWebsocket) :
  dict_get path (_conns m) = Some s ->
  _start_socket path coro prefix m = (None, m, []).
Proof. intros H. unfold _start_socket, dict_mem. now rewrite H. Qed.

Lemma start_socket_new (path : string) (coro : option handler)
    (prefix : string) (m : BinanceSocketManager) :
  dict_get path (_conns m) = None ->
  _start_socket path coro prefix m =
    (Some path,
     set_conns (dict_set path (fst (new_session path coro prefix)) (_conns m)) m,
     [EnsureFuture path]).
Proof. intros H. unfold _start_socket, dict_mem. now rewrite H. Qed.



(** ** Cancelling and stopping *)

Lemma cancel_returns (r : Q) (s : ReconnectingWebsocket) :
  _conn s <> Some (Suspended AtSleep) -> snd (cancel r s) = Returns tt.
Proof.
  intros H. unfold cancel, cancel_with, await_conn.
  destruct (_conn s) as [[[] | |] |]; try congruence; try reflexivity;
    match goal with
    | |- context [throw_cancelled r ?p s] =>
        destruct (throw_cancelled r p s) as [s1 t1]
    end;
    destruct (_conn s1) as [[[] | |] |]; reflexivity.
Qed.

(** [cancel] on a session in its backoff sleep: the task is cancelled, and
    the [RuntimeError] of [await self._conn] leaves the call before the
    last log and [self._socket = None]. *)
Lemma cancel_raises (r : Q) (s : ReconnectingWebsocket) :
  _conn s = Some (Suspended AtSleep) ->
  cancel r s
  = (set_conn (Some Cancelled) s,
     [Log WARNING (MsgCancelling (_path s))]
       ++ match _socket s with
          | Some sock => [Log DEBUG MsgClosingSocket; Close sock; Log DEBUG MsgSocketClosed]
          | None => []
          end
       ++ [TaskCancel (_path s); Log DEBUG MsgCancellingTask] ++ [],
     Raises RuntimeError).
Proof.
  intros H. unfold cancel, cancel_with, await_conn. rewrite H. reflexivity.
Qed.

Lemma cancel_path (r : Q) (s : ReconnectingWebsocket) :
  _path (fst (fst (cancel r s))) = _path s.
Proof.
  destruct (reconnect_fields r s) as (_ & _ & Hp & _).
  unfold cancel, cancel_with, await_conn.
  destruct (_conn s) as [[p | |] |]; try reflexivity.
  assert (Ht : _path (fst (throw_cancelled r p s)) = _path s).
  { destruct p; cbn [throw_cancelled]; try reflexivity;
      unfold leave_body, handle_exn; destruct (_reconnect r s) as [s1 t1];
      exact Hp. }
  destruct p; try (cbn [throw_cancelled]; reflexivity);
    destruct (throw_cancelled r _ s) as [s1 t1]; cbn [fst] in Ht;
    destruct (_conn s1) as [[[] | |] |]; exact Ht.
Qed.

Lemma cancel_closes (r : Q) (s : ReconnectingWebsocket) (sock : socket) :
  _socket s = Some sock -> In (Close sock) (snd (fst (cancel r s))).
Proof.
  intros H. unfold cancel, cancel_with. rewrite H.
  destruct (_conn s); [destruct (await_conn r s) as [[s1 ta] [u | e]] |]; cbn; auto.
Qed.

Lemma stop_user_socket_conns (m : BinanceSocketManager) :
  _conns (fst (_stop_user_socket m)) = _conns m.
Proof.
  unfold _stop_user_socket. destruct (negb (truthy (_user_listen_key m))); reflexivity.
Qed.

Lemma stop_socket_absent (r : Q) (k : string) (m : BinanceSocketManager) :
  dict_get k (_conns m) = None -> stop_socket r k m = (m, [], Returns tt).
Proof. intros H. unfold stop_socket. now rewrite H. Qed.

(** The registry after a [stop_socket]: the entry is deleted when [cancel]
    returns, and kept, with the session as [cancel] left it, when it
    raises. *)
Lemma stop_socket_conns (r : Q) (k : string) (m : BinanceSocketManager) :
  _conns (fst (fst (stop_socket r k m))) =
    match dict_get k (_conns m) with
    | Some s =>
        match snd (cancel r s) with
        | Returns _ => dict_del k (_conns m)
        | Raises _ => dict_set k (fst (fst (cancel r s))) (_conns m)
        end
    | None => _conns m
    end.
Proof.
  unfold stop_socket. destruct (dict_get k (_conns m)) as [s |]; [| reflexivity].
  destruct (cancel r s) as [[s' t1] [u | e]]; [| reflexivity].
  cbn [fst snd]. destruct (is_user_conn _ _); [| reflexivity].
  pose proof (stop_user_socket_conns (set_conns (dict_del k (_conns m)) m)) as H.
  destruct (_stop_user_socket _) as [m2 t2]. exact H.
Qed.

(** [stop_socket] raises exactly when the session it finds is in its
    backoff sleep, and then a [RuntimeError]. *)
Lemma stop_socket_ending (r : Q) (k : string) (m : BinanceSocketManager) :
  snd (stop_socket r k m)
  = match dict_get k (_conns m) with
    | Some s => snd (cancel r s)
    | None => Returns tt
    end.
Proof.
  unfold stop_socket. destruct (dict_get k (_conns m)) as [s |]; [| reflexivity].
  destruct (cancel r s) as [[s' t1] [[] | e]]; [| reflexivity].
  cbn [snd]. destruct (is_user_conn _ _); [| reflexivity].
  destruct (_stop_user_socket _) as [m2 t2]. reflexivity.
Qed.

(** C9, on the code: [close] reaches, first of its snapshot, a session that
    is in its backoff sleep. The call does not complete: [cancel] raises
    [RuntimeError] at [await self._conn], which leaves [stop_socket] before
    the [del] and [close] before [self._conns = {}]. Nothing has been
    stopped: the task of that session is cancelled, every identifier is
    still registered, the other sessions are as they were, and no transport
    has been closed. *)
Theorem close_raises_on_sleeping_session (draw : string -> Q) (rest : list string)
    (m : BinanceSocketManager) (k : string) (s : ReconnectingWebsocket) :
  dict_get k (_conns m) = Some s ->
  _conn s = Some (Suspended AtSleep) ->
  let res := close draw (k :: rest) m in
  snd res = Raises RuntimeError
  /\ fst (fst res) = set_conns (dict_set k (set_conn (Some Cancelled) s) (_conns m)) m
  /\ dict_keys (_conns (fst (fst res))) = dict_keys (_conns m)
  /\ _conns (fst (fst res)) <> []
  /\ (forall c, c <> k -> dict_get c (_conns (fst (fst res))) = dict_get c (_conns m))
  /\ snd (fst res)
     = [Log WARNING (MsgCancelling (_path s))]
         ++ match _socket s with
            | Some sock =>
                [Log DEBUG MsgClosingSocket; Close sock; Log DEBUG MsgSocketClosed]
            | None => []
            end
         ++ [TaskCancel (_path s); Log DEBUG MsgCancellingTask]
  /\ (_socket s = None -> forall sock, ~ In (Close sock) (snd (fst res))).
Proof.
  intros Hg Hs res.
  assert (E : res
            = (set_conns (dict_set k (set_conn (Some Cancelled) s) (_conns m)) m,
               [Log WARNING (MsgCancelling (_path s))]
                 ++ match _socket s with
                    | Some sock =>
                        [Log DEBUG MsgClosingSocket; Close sock; Log DEBUG MsgSocketClosed]
                    | None => []
                    end
                 ++ [TaskCancel (_path s); Log DEBUG MsgCancellingTask] ++ [],
               Raises RuntimeError)).
  { subst res. unfold close. cbn [stop_each]. unfold stop_socket.
    rewrite Hg, (cancel_raises (draw k) s Hs). reflexivity. }
  rewrite E. cbn [fst snd _conns set_conns].
  assert (Hk : dict_keys (dict_set k (set_conn (Some Cancelled) s) (_conns m))
               = dict_keys (_conns m)).
  { apply dict_set_keys_present. rewrite Hg. discriminate. }
  split; [reflexivity |]. split; [reflexivity |]. split; [exact Hk |].
  split; [| split; [| split]].
  - intros E0. rewrite E0 in Hk. cbn in Hk.
    apply dict_get_in in Hg. rewrite <- Hk in Hg. exact Hg.
  - intros c Hc. now apply dict_get_set_other.
  - now rewrite app_nil_r.
  - intros Hn sock. rewrite Hn. cbn. intuition discriminate.
Qed.

(** ** The user stream *)

Lemma substring_full (s : string) : substring 0 (String.length s) s = s.
Proof. induction s as [| c s IH]; simpl; [reflexivity | now rewrite IH]. Qed.

Lemma is_user_conn_self (k : string) :
  String.length k = 60%nat -> is_user_conn k (Some k) = true.
Proof.
  intros H. unfold is_user_conn. rewrite <- H at 2.
  rewrite substring_full, String.eqb_refl, H. reflexivity.
Qed.

Lemma truthy_length (k : string) :
  String.length k = 60%nat -> truthy (Some k) = true.
Proof. destruct k; [discriminate | reflexivity]. Qed.

Lemma truthy_nonempty (k : string) : k <> ""%string -> truthy (Some k) = true.
Proof. destruct k; [congruence | reflexivity]. Qed.

(** What [stop_socket] does to the registered user stream, its session not
    being in its backoff sleep. *)
Lemma stop_socket_user (r : Q) (k : string) (m : BinanceSocketManager)
    (s : ReconnectingWebsocket) :
  _user_listen_key m = Some k ->
  String.length k = 60%nat ->
  dict_get k (_conns m) = Some s ->
  _conn s <> Some (Suspended AtSleep) ->
  stop_socket r k m =
    ({| _conns := dict_del k (_conns m); _user_timer := None;
        _user_listen_key := None; _user_callback := _user_callback m |},
     snd (fst (cancel r s))
       ++ match _user_timer m with Some h0 => [TimerCancel h0] | None => [] end
       ++ [StreamClose k],
     Returns tt).
Proof.
  intros Hk Hl Hg Hs. unfold stop_socket. rewrite Hg.
  pose proof (cancel_returns r s Hs) as Hr.
  destruct (cancel r s) as [[s' t1] res]. cbn [fst snd] in *. subst res.
  cbn [set_conns _user_listen_key]. rewrite Hk, (is_user_conn_self k Hl).
  unfold _stop_user_socket. cbn [set_conns _user_listen_key _user_timer set_user_timer].
  rewrite Hk, (truthy_length k Hl). reflexivity.
Qed.

(** ** Further properties of the session *)

Lemma handle_exn_eq (r : Q) (e : exn) (s : ReconnectingWebsocket) :
  exists msg, handle_exn r e s
              = (fst (_reconnect r s), Log DEBUG msg :: snd (_reconnect r s)).
Proof.
  unfold handle_exn. destruct (_reconnect r s) as [s1 t1]. eexists. reflexivity.
Qed.

Lemma leave_body_eq (r : Q) (e : exn) (s : ReconnectingWebsocket) :
  exists msg, leave_body r e s
              = (fst (_reconnect r s),
                 (match _socket s with Some sock => [Close sock] | None => [] end
                    ++ [Log DEBUG msg]) ++ snd (_reconnect r s)).
Proof.
  unfold leave_body. destruct (handle_exn_eq r e s) as [msg ->].
  exists msg. now rewrite <- app_assoc.
Qed.

(** X1: a receive timeout or a closed signal answered by ping and pong
    leaves the session exactly as it was, waiting on the same transport. *)
Theorem probe_keeps_session (r1 r2 r3 : Q) (e : exn) (s : ReconnectingWebsocket)
    (sock : socket) :
  _conn s = Some (Suspended AtRecv) ->
  _socket s = Some sock ->
  e = TimeoutError \/ e = ConnectionClosed ->
  run [(r1, Received (Raises e)); (r2, PingSent (Returns tt)); (r3, Pong (Returns tt))] s
    = Some (s, [Ping sock; Log DEBUG MsgPingOK]).
Proof.
  intros Hc Hs He. destruct s as [pa co pr rc cn sk]. cbn in Hc, Hs. subst cn sk.
  destruct He as [-> | ->]; reflexivity.
Qed.

(** X2: a frame that decodes is handed to the handler once, and when the
    handler returns the session waits for the next frame, unchanged. *)
Theorem frame_reaches_handler (r1 r2 : Q) (evt : string) (d : document)
    (h : handler) (s : ReconnectingWebsocket) :
  _conn s = Some (Suspended AtRecv) ->
  loads evt = Some d ->
  _coro s = Some h ->
  run [(r1, Received (Returns evt)); (r2, Handled (Returns tt))] s
    = Some (s, [Call h d]).
Proof.
  intros Hc Hl Hh. destruct s as [pa co pr rc cn sk]. cbn in Hc, Hh. subst cn co.
  cbn. rewrite Hl. reflexivity.
Qed.

(** X3: an exception out of [connect], out of [recv] (other than a timeout
    or a closed signal), or out of the ping or the wait for the pong ends
    the attempt in [_reconnect]; past [connect] the transport is closed
    first. *)
Theorem fault_routes_to_reconnect (r : Q) (e : exn) (i : input)
    (s : ReconnectingWebsocket) :
  (_conn s = Some (Suspended AtConnect) /\ i = Connected (Raises e))
  \/ (_conn s = Some (Suspended AtRecv) /\ i = Received (Raises e)
      /\ e <> TimeoutError /\ e <> ConnectionClosed)
  \/ (_conn s = Some (Suspended AtPing) /\ i = PingSent (Raises e))
  \/ (_conn s = Some (Suspended AtPong) /\ i = Pong (Raises e)) ->
  exists t0,
    resume r i s = Some (fst (_reconnect r s), t0 ++ snd (_reconnect r s))
    /\ (forall sock, _socket s = Some sock ->
          _conn s <> Some (Suspended AtConnect) -> In (Close sock) t0).
Proof.
  intros [[Hc ->] | [(Hc & -> & H1 & H2) | [[Hc ->] | [Hc ->]]]];
    unfold resume; rewrite Hc.
  - destruct (handle_exn_eq r e s) as [msg ->]. exists [Log DEBUG msg].
    split; [reflexivity | intros sock _ H; congruence].
  - destruct (leave_body_eq r e s) as [msg E].
    exists (match _socket s with Some sock => [Close sock] | None => [] end
              ++ [Log DEBUG msg]).
    split; [destruct e; try congruence; rewrite E; reflexivity |].
    intros sock -> _. left. reflexivity.
  - destruct (leave_body_eq r e s) as [msg ->]. eexists. split; [reflexivity |].
    intros sock -> _. left. reflexivity.
  - destruct (leave_body_eq r e s) as [msg ->]. eexists. split; [reflexivity |].
    intros sock -> _. left. reflexivity.
Qed.

(** X4: a new task is created only when a backoff sleep ends: no other step
    of [_run] schedules a connect. *)
Theorem task_only_after_sleep (r : Q) (i : input) (s s' : ReconnectingWebsocket)
    (t : trace) (p : string) :
  resume r i s = Some (s', t) ->
  In (EnsureFuture p) t ->
  i = Slept (Returns tt) /\ _conn s = Some (Suspended AtSleep) /\ p = _path s.
Proof.
  unfold resume. intros H Hin.
  assert (Hh : forall e, handle_exn r e s = (s', t) -> False).
  { intros e E. destruct (handle_exn_eq r e s) as [msg E']. rewrite E' in E.
    inversion E; subst t. destruct Hin as [Hd | Hi]; [discriminate |].
    exact (reconnect_no_task r s p Hi). }
  assert (Hl : forall e, leave_body r e s = (s', t) -> False).
  { intros e E. destruct (leave_body_eq r e s) as [msg E']. rewrite E' in E.
    inversion E; subst t. rewrite !in_app_iff in Hin.
    destruct Hin as [[Hi | Hi] | Hi].
    - destruct (_socket s); [destruct Hi as [Hd | []]; discriminate | destruct Hi].
    - destruct Hi as [Hd | []]; discriminate.
    - exact (reconnect_no_task r s p Hi). }
  destruct (_conn s) as [[pt | |] |]; try discriminate.
  destruct pt,
    i as [| [sock | e] | [evt | e] | [[] | e] | [[] | e] | [[] | e] | [[] | e]];
    try discriminate H.
  all: try (exfalso; injection H as E; first [exact (Hh _ E) | exact (Hl _ E)]).
  all: try (exfalso; injection H as E1 E2; subst t; cbn in Hin;
            repeat (destruct Hin as [Hin | Hin]; [discriminate Hin |]);
            exact Hin).
  - exfalso. destruct (loads evt); [destruct (_coro s) |].
    + injection H as E1 E2; subst t. destruct Hin as [Hd | []]. discriminate Hd.
    + injection H as E. exact (Hl _ E).
    + injection H as E1 E2; subst t. destruct Hin as [Hd | []]. discriminate Hd.
  - exfalso. destruct e;
      try (injection H as E; exact (Hl _ E));
      injection H as E1 E2; subst t;
      destruct (_socket s); cbn in Hin;
      repeat (destruct Hin as [Hin | Hin]; [discriminate Hin |]); exact Hin.
  - injection H as E1 E2; subst t. destruct Hin as [Hd | []].
    injection Hd as ->. auto.
Qed.

Ltac bools :=
  unfold MAX_RECONNECTS in *;
  rewrite ?andb_true_iff, ?Z.leb_le, ?Z.ltb_lt, ?Z.eqb_eq, ?negb_true_iff in *.

Lemma session_ok_range (s : ReconnectingWebsocket) :
  session_ok s = true -> 0 <= _reconnects s <= MAX_RECONNECTS.
Proof.
  unfold session_ok. destruct (_conn s) as [[[] | |] |]; try discriminate;
    bools; lia.
Qed.

Lemma reconnect_ok (r : Q) (s : ReconnectingWebsocket) :
  0 <= _reconnects s < MAX_RECONNECTS -> session_ok (fst (_reconnect r s)) = true.
Proof.
  intros H. destruct (cancel_self_fields s) as (Hs & _).
  destruct (Z_lt_le_dec (_reconnects s + 1) MAX_RECONNECTS) as [Hb | Hb];
    [rewrite (reconnect_below r s Hb) | rewrite (reconnect_exhausted r s Hb)];
    unfold session_ok, has_socket; fields; rewrite Hs; bools; lia.
Qed.

Lemma session_ok_budget (s : ReconnectingWebsocket) (p : await_point) :
  session_ok s = true -> _conn s = Some (Suspended p) ->
  0 <= _reconnects s < MAX_RECONNECTS.
Proof.
  unfold session_ok. intros H Hc. rewrite Hc in H. destruct p; bools; lia.
Qed.

Lemma resume_ok (r : Q) (i : input) (s s' : ReconnectingWebsocket) (t : trace) :
  session_ok s = true -> resume r i s = Some (s', t) -> session_ok s' = true.
Proof.
  intros Hok H. unfold resume in H.
  destruct (_conn s) as [[pt | |] |] eqn:Hc; try discriminate.
  pose proof (session_ok_budget s pt Hok Hc) as Hb.
  assert (Hh : forall e, handle_exn r e s = (s', t) -> session_ok s' = true).
  { intros e E. destruct (handle_exn_eq r e s) as [msg E']. rewrite E' in E.
    injection E as <- _. now apply reconnect_ok. }
  assert (Hl : forall e, leave_body r e s = (s', t) -> session_ok s' = true).
  { intros e E. destruct (leave_body_eq r e s) as [msg E']. rewrite E' in E.
    injection E as <- _. now apply reconnect_ok. }
  unfold session_ok, has_socket in Hok. rewrite Hc in Hok.
  destruct pt,
    i as [| [sock | e] | [evt | e] | [[] | e] | [[] | e] | [[] | e] | [[] | e]];
    try discriminate H.
  all: try (injection H as E; first [exact (Hh _ E) | exact (Hl _ E)]).
  all: try (injection H as <- _; unfold session_ok, has_socket, _connect; fields;
            destruct (_socket s); bools; intuition (try lia; try congruence)).
  - destruct (loads evt); [destruct (_coro s) |];
      try (injection H as E; exact (Hl _ E));
      injection H as <- _; unfold session_ok, has_socket; fields;
      destruct (_socket s); bools; intuition (try lia; try congruence).
  - destruct e; try (injection H as E; exact (Hl _ E));
      injection H as <- _; unfold session_ok, has_socket; fields;
      destruct (_socket s); bools; intuition (try lia; try congruence).
Qed.

Lemma throw_cancelled_fst (r : Q) (p : await_point) (s : ReconnectingWebsocket) :
  fst (throw_cancelled r p s)
  = match p with
    | AtStart | AtSleep => set_conn (Some Cancelled) s
    | _ => fst (_reconnect r s)
    end.
Proof.
  destruct p; cbn [throw_cancelled]; try reflexivity;
    first [ destruct (handle_exn_eq r CancelledError s) as [msg ->]
          | destruct (leave_body_eq r CancelledError s) as [msg ->] ];
    reflexivity.
Qed.

(** The session a [cancel] from outside leaves. *)
Lemma cancel_state (r : Q) (s : ReconnectingWebsocket) :
  fst (fst (cancel r s))
  = match _conn s with
    | Some (Suspended AtSleep) => set_conn (Some Cancelled) s
    | Some (Suspended p) =>
        set_socket None
          match _conn (fst (throw_cancelled r p s)) with
          | Some (Suspended AtSleep) =>
              suspend AtConnect (suspend AtStart (fst (throw_cancelled r p s)))
          | _ => fst (throw_cancelled r p s)
          end
    | _ => set_socket None s
    end.
Proof.
  unfold cancel, cancel_with, await_conn.
  destruct (_conn s) as [[p | |] |]; try reflexivity.
  destruct p; try reflexivity;
    destruct (throw_cancelled r _ s) as [s1 t1]; cbn [fst];
    destruct (_conn s1) as [[[] | |] |]; reflexivity.
Qed.

Lemma cancel_ok (r : Q) (s : ReconnectingWebsocket) :
  session_ok s = true -> session_ok (fst (fst (cancel r s))) = true.
Proof.
  intros Hok. rewrite cancel_state.
  destruct (_conn s) as [[pt | |] |] eqn:Hc.
  - pose proof (session_ok_budget s pt Hok Hc) as Hb.
    destruct (reconnect_fields r s) as (_ & _ & _ & Hcase).
    pose proof (reconnect_ok r s Hb) as Hro.
    unfold session_ok, has_socket in Hok. rewrite Hc in Hok.
    destruct pt; rewrite ?throw_cancelled_fst; fields;
      try (unfold session_ok, has_socket; fields; rewrite ?Hc;
           destruct (_socket s); bools; intuition (try lia; try congruence); fail);
      (destruct Hcase as [E | E]; rewrite E;
       unfold session_ok, has_socket in *; fields; rewrite ?E in *; bools;
       intuition (try lia; try congruence)).
  - unfold session_ok, has_socket in *. fields. rewrite Hc in *.
    bools; intuition (try lia; try congruence).
  - unfold session_ok, has_socket in *. fields. rewrite Hc in *.
    bools; intuition (try lia; try congruence).
  - unfold session_ok in Hok. rewrite Hc in Hok. discriminate.
Qed.

(** X5: between the steps of its task a session keeps its shape, along any
    script of inputs and across [cancel]: the counter is 0 while connected
    and stays within 0..20, the transport handle is held exactly while
    connected, and a new session starts in that shape. *)
Theorem session_invariant (s : ReconnectingWebsocket) :
  session_ok s = true ->
  (forall script s' t,
      run script s = Some (s', t) ->
      session_ok s' = true /\ 0 <= _reconnects s' <= MAX_RECONNECTS)
  /\ (forall r, session_ok (fst (fst (cancel r s))) = true)
  /\ (forall path coro prefix, session_ok (fst (new_session path coro prefix)) = true).
Proof.
  intros Hok. split; [| split; [intros r; now apply cancel_ok | reflexivity]].
  intros script. revert s Hok.
  induction script as [| [r i] script IH]; intros s Hok s' t H.
  - injection H as <- _. split; [exact Hok | now apply session_ok_range].
  - cbn [run] in H. destruct (resume r i s) as [[s1 t1] |] eqn:E; [| discriminate].
    destruct (run script s1) as [[s2 t2] |] eqn:E2; [| discriminate].
    injection H as <- _. eapply IH; [eapply resume_ok; eauto | exact E2].
Qed.

(** X6: [cancel] on a task that is not running [_run]: a task that has not
    started is cancelled, a finished or cancelled one is left alone, and in
    these cases the call returns with the transport handle cleared; on a
    task in its backoff sleep the call cancels the task and then raises
    [RuntimeError], before the last log and [self._socket = None]. In all
    four cases the task ends cancelled or finished, nothing is slept or
    scheduled, the counter is kept and no input wakes the session again. *)
Theorem cancel_stops_idle_task (r : Q) (s : ReconnectingWebsocket) :
  _conn s = Some (Suspended AtStart) \/ _conn s = Some (Suspended AtSleep)
  \/ _conn s = Some Finished \/ _conn s = Some Cancelled ->
  (_conn (fst (fst (cancel r s))) = Some Cancelled
   \/ _conn (fst (fst (cancel r s))) = Some Finished)
  /\ _reconnects (fst (fst (cancel r s))) = _reconnects s
  /\ (forall p, ~ In (EnsureFuture p) (snd (fst (cancel r s))))
  /\ (forall w, ~ In (Sleep w) (snd (fst (cancel r s))))
  /\ (forall r' i, resume r' i (fst (fst (cancel r s))) = None)
  /\ (_conn s = Some (Suspended AtSleep) ->
      snd (cancel r s) = Raises RuntimeError
      /\ _socket (fst (fst (cancel r s))) = _socket s
      /\ ~ In (Log DEBUG MsgTaskCancelled) (snd (fst (cancel r s))))
  /\ (_conn s <> Some (Suspended AtSleep) ->
      snd (cancel r s) = Returns tt
      /\ _socket (fst (fst (cancel r s))) = None).
Proof.
  intros H. destruct s as [pa co pr rc cn sk]. cbn [_conn] in H.
  unfold cancel, cancel_with, await_conn, resume.
  destruct H as [-> | [-> | [-> | ->]]]; destruct sk; cbn;
    (split; [auto |]); (split; [reflexivity |]);
    (split; [intros x Hin;
             repeat (destruct Hin as [Hin | Hin]; [discriminate Hin |]); exact Hin |]);
    (split; [intros x Hin;
             repeat (destruct Hin as [Hin | Hin]; [discriminate Hin |]); exact Hin |]);
    (split; [reflexivity |]);
    (split; [intros E; try discriminate E;
             (split; [reflexivity |]); (split; [reflexivity |]);
             intros Hin;
             repeat (destruct Hin as [Hin | Hin]; [discriminate Hin |]); exact Hin
            | intros E; try (exfalso; apply E; reflexivity); split; reflexivity]).
Qed.

Lemma run_app (a b : list (Q * input)) (s : ReconnectingWebsocket) :
  run (a ++ b) s
  = match run a s with
    | Some (s1, t1) =>
        match run b s1 with
        | Some (s2, t2) => Some (s2, t1 ++ t2)
        | None => None
        end
    | None => None
    end.
Proof.
  revert s. induction a as [| [r i] a IH]; intros s; cbn [run app].
  - destruct (run b s) as [[s2 t2] |]; reflexivity.
  - destruct (resume r i s) as [[s1 t1] |]; [| reflexivity].
    rewrite IH. destruct (run a s1) as [[s2 t2] |]; [| reflexivity].
    destruct (run b s2) as [[s3 t3] |]; [| reflexivity].
    now rewrite app_assoc.
Qed.

Lemma failure_cycle (r : Q) (e : exn) (s : ReconnectingWebsocket) :
  _conn s = Some (Suspended AtConnect) -> _socket s = None ->
  _reconnects s + 1 < MAX_RECONNECTS ->
  exists t,
    run [(r, Connected (Raises e)); (r, Slept (Returns tt)); (r, Step)] s
      = Some (set_reconnects (_reconnects s + 1) s, t)
    /\ List.length (filter is_sleep t) = 1%nat
    /\ List.length (filter is_task t) = 1%nat.
Proof.
  intros Hc Hs Hb. cbn [run]. unfold resume at 1. rewrite Hc.
  destruct (handle_exn_eq r e s) as [msg ->]. rewrite (reconnect_below r s Hb).
  destruct s as [pa co pr rc cn sk]. cbn [_conn _socket _reconnects] in *. subst cn sk.
  unfold cancel_self, cancel_with. cbn. eexists. split; [reflexivity |].
  split; reflexivity.
Qed.

Lemma failures_run (l : list (Q * exn)) :
  forall s : ReconnectingWebsocket,
    _conn s = Some (Suspended AtConnect) -> _socket s = None ->
    _reconnects s + Z.of_nat (List.length l) < MAX_RECONNECTS ->
    exists t,
      run (failures l) s
        = Some (set_reconnects (_reconnects s + Z.of_nat (List.length l)) s, t)
      /\ List.length (filter is_sleep t) = List.length l
      /\ List.length (filter is_task t) = List.length l.
Proof.
  induction l as [| [r e] l IH]; intros s Hc Hs Hb.
  - exists []. cbn. rewrite Z.add_0_r. destruct s; auto.
  - cbn [List.length] in Hb. rewrite Nat2Z.inj_succ in Hb.
    destruct (failure_cycle r e s Hc Hs ltac:(lia)) as (t1 & H1 & H2 & H3).
    destruct (IH (set_reconnects (_reconnects s + 1) s) Hc Hs
                 ltac:(cbn [_reconnects set_reconnects]; lia)) as (t2 & G1 & G2 & G3).
    exists (t1 ++ t2).
    change (failures ((r, e) :: l))
      with ([(r, Connected (Raises e)); (r, Slept (Returns tt)); (r, Step)] ++ failures l).
    rewrite run_app, H1, G1. cbn [List.length]. rewrite Nat2Z.inj_succ.
    rewrite !filter_app, !length_app, H2, H3, G2, G3.
    split; [| split; reflexivity]. unfold set_reconnects.
    cbn [_reconnects _path _coro _prefix _conn _socket].
    do 3 f_equal. lia.
Qed.

(** X7: a session whose connects fail in a row keeps trying with the counter
    at the number of failures, one backoff sleep and one new task per
    failure; at the twentieth failure it logs the terminal error and its
    task finishes, after 19 sleeps and 19 new tasks. *)
Theorem gives_up_at_twentieth_failure (l : list (Q * exn)) (r : Q) (e : exn)
    (s : ReconnectingWebsocket) :
  _conn s = Some (Suspended AtConnect) -> _socket s = None -> _reconnects s = 0 ->
  (List.length l <= 19)%nat ->
  (exists t,
      run (failures l) s = Some (set_reconnects (Z.of_nat (List.length l)) s, t)
      /\ List.length (filter is_sleep t) = List.length l
      /\ List.length (filter is_task t) = List.length l)
  /\ (List.length l = 19%nat ->
      exists s' t,
        run (failures l ++ [(r, Connected (Raises e))]) s = Some (s', t)
        /\ _conn s' = Some Finished
        /\ _reconnects s' = MAX_RECONNECTS
        /\ In (Log ERROR (MsgMaxReconnects MAX_RECONNECTS)) t
        /\ List.length (filter is_sleep t) = 19%nat
        /\ List.length (filter is_task t) = 19%nat).
Proof.
  intros Hc Hs Hr Hl.
  destruct (failures_run l s Hc Hs) as (t & H1 & H2 & H3).
  { rewrite Hr. unfold MAX_RECONNECTS. lia. }
  rewrite Hr, Z.add_0_l in H1.
  split; [exists t; auto |].
  intros Hlen. rewrite run_app, H1. cbn [run]. unfold resume at 1.
  cbn [_conn set_reconnects]. rewrite Hc.
  destruct (handle_exn_eq r e (set_reconnects (Z.of_nat (List.length l)) s)) as [msg ->].
  rewrite reconnect_exhausted
    by (cbn [_reconnects set_reconnects]; unfold MAX_RECONNECTS; lia).
  eexists _, _. split; [reflexivity |].
  cbn [fst snd _conn _reconnects set_conn set_reconnects]. rewrite app_nil_r.
  split; [reflexivity |]. split; [rewrite Hlen; reflexivity |].
  split.
  - apply in_or_app. right. right. apply in_or_app. right. left. reflexivity.
  - rewrite !filter_app, !length_app, H2, H3, Hlen.
    destruct s as [pa co pr rc cn sk]. cbn [_conn _socket] in Hc, Hs. subst cn sk.
    unfold cancel_self, cancel_with. cbn. auto.
Qed.

Lemma cancel_self_no_sleep (s : ReconnectingWebsocket) (w : Z) :
  ~ In (Sleep w) (snd (cancel_self s)).
Proof.
  unfold cancel_self, cancel_with. destruct (_conn s), (_socket s); cbn;
    intros Hin; repeat (destruct Hin as [Hin | Hin]; [discriminate Hin |]); exact Hin.
Qed.

Lemma reconnect_sleep (r : Q) (s : ReconnectingWebsocket) (w : Z) :
  In (Sleep w) (snd (_reconnect r s)) ->
  _reconnects s + 1 < MAX_RECONNECTS
  /\ w = _get_reconnect_wait fl (_reconnects s + 1) r.
Proof.
  destruct (Z_lt_le_dec (_reconnects s + 1) MAX_RECONNECTS) as [Hb | Hb];
    [rewrite (reconnect_below r s Hb) | rewrite (reconnect_exhausted r s Hb)];
    cbn [snd]; rewrite in_app_iff; intros [Hin | Hin];
    try (destruct (cancel_self_no_sleep s w Hin)).
  - destruct Hin as [Hd | [Hd | []]]; [discriminate Hd |]. injection Hd as <-. auto.
  - destruct Hin as [Hd | []]. discriminate Hd.
Qed.

(** A step of the task sleeps only inside [_reconnect]. *)
Lemma resume_sleep (r : Q) (i : input) (s s' : ReconnectingWebsocket) (t : trace)
    (w : Z) :
  resume r i s = Some (s', t) -> In (Sleep w) t -> In (Sleep w) (snd (_reconnect r s)).
Proof.
  unfold resume. intros H Hin.
  assert (Hh : forall e, handle_exn r e s = (s', t) ->
                         In (Sleep w) (snd (_reconnect r s))).
  { intros e E. destruct (handle_exn_eq r e s) as [msg E']. rewrite E' in E.
    injection E as _ <-. destruct Hin as [Hd | Hi]; [discriminate Hd | exact Hi]. }
  assert (Hl : forall e, leave_body r e s = (s', t) ->
                         In (Sleep w) (snd (_reconnect r s))).
  { intros e E. destruct (leave_body_eq r e s) as [msg E']. rewrite E' in E.
    injection E as _ <-. rewrite !in_app_iff in Hin.
    destruct Hin as [[Hi | Hi] | Hi]; [exfalso | exfalso | exact Hi].
    - destruct (_socket s); [destruct Hi as [Hd | []]; discriminate Hd | destruct Hi].
    - destruct Hi as [Hd | []]; discriminate Hd. }
  destruct (_conn s) as [[pt | |] |]; try discriminate.
  destruct pt,
    i as [| [sock | e] | [evt | e] | [[] | e] | [[] | e] | [[] | e] | [[] | e]];
    try discriminate H.
  all: try (injection H as E; first [exact (Hh _ E) | exact (Hl _ E)]).
  all: try (exfalso; injection H as E1 E2; subst t; cbn in Hin;
            repeat (destruct Hin as [Hin | Hin]; [discriminate Hin |]);
            exact Hin).
  - destruct (loads evt); [destruct (_coro s) |].
    + exfalso. injection H as E1 E2; subst t. destruct Hin as [Hd | []]. discriminate Hd.
    + injection H as E. exact (Hl _ E).
    + exfalso. injection H as E1 E2; subst t. destruct Hin as [Hd | []]. discriminate Hd.
  - destruct e;
      try (injection H as E; exact (Hl _ E));
      exfalso; injection H as E1 E2; subst t;
      destruct (_socket s); cbn in Hin;
      repeat (destruct Hin as [Hin | Hin]; [discriminate Hin |]); exact Hin.
Qed.

(** ** Further properties of the manager *)

Lemma dict_set_keys {V : Type} (k : string) (v : V) (d : dict V) :
  dict_get k d = None -> dict_keys (dict_set k v d) = dict_keys d ++ [k].
Proof.
  unfold dict_keys. induction d as [| [k' v'] d IH]; cbn; [reflexivity |].
  destruct (String.eqb_spec k k'); [discriminate |].
  intros H. cbn. now rewrite (IH H).
Qed.

Lemma dict_del_set {V : Type} (k : string) (v : V) (d : dict V) :
  dict_get k d = None -> dict_del k (dict_set k v d) = d.
Proof.
  induction d as [| [k' v'] d IH]; cbn.
  - now rewrite String.eqb_refl.
  - destruct (String.eqb_spec k k') as [| Hne]; [discriminate |].
    intros H. cbn. destruct (String.eqb_spec k k'); [contradiction |].
    now rewrite (IH H).
Qed.

Lemma dict_get_del_some {V : Type} (k c : string) (d : dict V) (v : V) :
  NoDup (dict_keys d) -> dict_get k (dict_del c d) = Some v ->
  k <> c /\ dict_get k d = Some v.
Proof.
  intros Hn H. destruct (String.eqb_spec k c) as [-> | Hne].
  - destruct (dict_del_nodup c d Hn) as [_ Hk].
    destruct (Hk (dict_get_in _ _ _ H)).
  - split; [exact Hne |]. now rewrite dict_get_del_other in H.
Qed.

Lemma registry_ok_del (c : string) (m : BinanceSocketManager) :
  registry_ok m -> registry_ok (set_conns (dict_del c (_conns m)) m).
Proof.
  intros [Hn Hp]. split; cbn [_conns set_conns].
  - apply (dict_del_nodup c (_conns m) Hn).
  - intros k s H. apply Hp. exact (proj2 (dict_get_del_some k c _ s Hn H)).
Qed.

Lemma registry_ok_conns (m m' : BinanceSocketManager) :
  _conns m' = _conns m -> registry_ok m -> registry_ok m'.
Proof. unfold registry_ok. intros ->. auto. Qed.

Lemma start_socket_ok (path : string) (coro : option handler) (prefix : string)
    (m : BinanceSocketManager) :
  registry_ok m -> registry_ok (snd (fst (_start_socket path coro prefix m))).
Proof.
  intros [Hn Hp]. destruct (dict_get path (_conns m)) as [s0 |] eqn:E.
  - rewrite (start_socket_registered path coro prefix m s0 E). now split.
  - rewrite (start_socket_new path coro prefix m E).
    split; cbn [fst snd _conns set_conns].
    + rewrite (dict_set_keys path _ _ E).
      apply NoDup_app; [exact Hn | repeat constructor; intros [] |].
      intros k Hk [<- | []]. exact (dict_get_none _ _ E Hk).
    + intros k s. destruct (String.eqb_spec k path) as [-> | Hne].
      * rewrite dict_get_set_same. intros H. injection H as <-. reflexivity.
      * rewrite dict_get_set_other by exact Hne. apply Hp.
Qed.

Lemma registry_ok_set (k : string) (s1 : ReconnectingWebsocket)
    (m : BinanceSocketManager) :
  registry_ok m -> dict_get k (_conns m) <> None -> _path s1 = k ->
  registry_ok (set_conns (dict_set k s1 (_conns m)) m).
Proof.
  intros [Hn Hp] Hg Hk. split; cbn [_conns set_conns].
  - now rewrite dict_set_keys_present.
  - intros c s. destruct (String.eqb_spec c k) as [-> | Hne].
    + rewrite dict_get_set_same. intros H. injection H as <-. exact Hk.
    + rewrite dict_get_set_other by exact Hne. apply Hp.
Qed.

Lemma stop_socket_ok (r : Q) (k : string) (m : BinanceSocketManager) :
  registry_ok m -> registry_ok (fst (fst (stop_socket r k m))).
Proof.
  intros Hok. pose proof (stop_socket_conns r k m) as Hc.
  destruct (dict_get k (_conns m)) as [s |] eqn:E;
    [destruct (snd (cancel r s)) |].
  - apply (registry_ok_conns (set_conns (dict_del k (_conns m)) m));
      [exact Hc | exact (registry_ok_del k m Hok)].
  - apply (registry_ok_conns
             (set_conns (dict_set k (fst (fst (cancel r s))) (_conns m)) m));
      [exact Hc |].
    apply registry_ok_set; [exact Hok | congruence |].
    rewrite cancel_path. exact (proj2 Hok k s E).
  - apply (registry_ok_conns m); [exact Hc | exact Hok].
Qed.

Lemma start_user_socket_ok (r : Q) (h : timer) (k : string) (cb : option handler)
    (m : BinanceSocketManager) :
  registry_ok m -> registry_ok (fst (fst (_start_user_socket r h k cb m))).
Proof.
  intros Hok. unfold _start_user_socket.
  set (stopped := if truthy (_user_listen_key m)
                  then match find (fun conn_key => is_user_conn conn_key (_user_listen_key m))
                                  (dict_keys (_conns m)) with
                       | Some conn_key => stop_socket r conn_key m
                       | None => (m, [], Returns tt)
                       end
                  else (m, [], Returns tt)).
  assert (Hs : registry_ok (fst (fst stopped))).
  { subst stopped. destruct (truthy _); [| exact Hok].
    destruct (find _ _) as [c |]; [now apply stop_socket_ok | exact Hok]. }
  destruct stopped as [[m1 t1] [u | e]]; cbn [fst] in Hs; [| exact Hs].
  pose proof (start_socket_ok k cb "ws/"
                (set_user_callback cb (set_user_listen_key (Some k) m1))
                (registry_ok_conns m1 _ eq_refl Hs)) as H.
  destruct (_start_socket k cb "ws/" _) as [[ck m3] t2]. cbn [fst snd] in H.
  destruct (truthy ck); exact H.
Qed.

Lemma stop_each_ok (draw : string -> Q) (keys : list string) :
  forall m : BinanceSocketManager,
    registry_ok m -> registry_ok (fst (fst (stop_each draw keys m))).
Proof.
  induction keys as [| k0 keys IH]; intros m Hok; [exact Hok |].
  cbn [stop_each]. pose proof (stop_socket_ok (draw k0) k0 m Hok) as H.
  destruct (stop_socket (draw k0) k0 m) as [[m1 t1] [u | e]]; cbn [fst] in H;
    [| exact H].
  specialize (IH m1 H). destruct (stop_each draw keys m1) as [[m2 t2] res2]. exact IH.
Qed.

(** X9: every operation of the manager keeps the registry a dict keyed by
    the paths of its sessions, with no identifier twice, also when the
    operation ends with an exception. *)
Theorem registry_invariant (m : BinanceSocketManager) :
  registry_ok m ->
  (forall path coro prefix, registry_ok (snd (fst (_start_socket path coro prefix m))))
  /\ (forall symbol coro, registry_ok (snd (fst (start_trade_socket symbol coro m))))
  /\ (forall symbol coro depth,
        registry_ok (snd (fst (start_depth_socket symbol coro depth m))))
  /\ (forall r k, registry_ok (fst (fst (stop_socket r k m))))
  /\ (forall r h k cb, registry_ok (fst (fst (_start_user_socket r h k cb m))))
  /\ (forall r h k, registry_ok (fst (fst (_keepalive_user_socket r h k m))))
  /\ (forall draw keys, registry_ok (fst (fst (close draw keys m)))).
Proof.
  intros Hok. split; [| split; [| split; [| split; [| split; [| split]]]]].
  - intros. now apply start_socket_ok.
  - intros symbol coro. unfold start_trade_socket.
    pose proof (start_socket_ok (lower symbol ++ "@trade") (Some coro) "ws/" m Hok) as H.
    destruct (_start_socket _ _ _ m) as [[ck m1] t]. exact H.
  - intros symbol coro depth. unfold start_depth_socket.
    match goal with |- context [_start_socket ?p ?c ?x m] =>
      pose proof (start_socket_ok p c x m Hok) as H;
      destruct (_start_socket p c x m) as [[ck m1] t] end. exact H.
  - intros. now apply stop_socket_ok.
  - intros. now apply start_user_socket_ok.
  - intros r h k. unfold _keepalive_user_socket.
    destruct (match _user_listen_key m with
              | Some k0 => negb (k =? k0)%string
              | None => true
              end).
    + pose proof (start_user_socket_ok r h k (_user_callback m) m Hok) as H.
      destruct (_start_user_socket r h k (_user_callback m) m) as [[m1 t] [u | e]];
        exact H.
    + exact Hok.
  - intros draw keys. unfold close.
    pose proof (stop_each_ok draw keys m Hok) as H.
    destruct (stop_each draw keys m) as [[m1 t] [u | e]]; [| exact H].
    split; [constructor | cbn; discriminate].
Qed.

(** X10: a stream started and stopped at once leaves the manager as it was:
    the new task is cancelled before it runs, nothing is slept and no
    second task is created. *)
Theorem start_then_stop (r : Q) (path : string) (coro : option handler)
    (prefix : string) (m : BinanceSocketManager) :
  dict_get path (_conns m) = None ->
  is_user_conn path (_user_listen_key m) = false ->
  stop_socket r path (snd (fst (_start_socket path coro prefix m)))
  = (m, [Log WARNING (MsgCancelling path); TaskCancel path;
         Log DEBUG MsgCancellingTask; Log DEBUG MsgTaskCancelled], Returns tt).
Proof.
  intros Hg Hu. rewrite (start_socket_new path coro prefix m Hg). cbn [fst snd].
  unfold stop_socket. cbn [_conns set_conns _user_listen_key].
  rewrite dict_get_set_same. cbn.
  rewrite (dict_del_set path _ _ Hg), Hu.
  destruct m. reflexivity.
Qed.

(** X11: to restart a registered stream the caller stops it first. When the
    session is not in its backoff sleep, [stop_socket] returns and the same
    identifier then starts a fresh session, with the new handler, counter 0
    and a task that has not run yet, every other entry being as it was.
    When the session is in its backoff sleep, [stop_socket] raises
    [RuntimeError], the identifier stays registered with its cancelled
    session, and the start that follows is a no-op returning [None]. *)
Theorem stop_then_start (r : Q) (k : string) (coro : option handler)
    (prefix : string) (m : BinanceSocketManager) (s : ReconnectingWebsocket) :
  registry_ok m ->
  dict_get k (_conns m) = Some s ->
  let stopped := stop_socket r k m in
  let res := _start_socket k coro prefix (fst (fst stopped)) in
  (_conn s <> Some (Suspended AtSleep) ->
   snd stopped = Returns tt
   /\ fst (fst res) = Some k
   /\ snd res = [EnsureFuture k]
   /\ dict_get k (_conns (snd (fst res)))
      = Some {| _path := k; _coro := coro; _prefix := prefix; _reconnects := 0;
                _conn := Some (Suspended AtStart); _socket := None |}
   /\ (forall c, c <> k -> dict_get c (_conns (snd (fst res))) = dict_get c (_conns m)))
  /\ (_conn s = Some (Suspended AtSleep) ->
      snd stopped = Raises RuntimeError
      /\ dict_get k (_conns (fst (fst stopped))) = Some (set_conn (Some Cancelled) s)
      /\ res = (None, fst (fst stopped), [])).
Proof.
  intros [Hn _] Hg stopped res.
  pose proof (stop_socket_conns r k m) as Hc.
  pose proof (stop_socket_ending r k m) as He.
  rewrite Hg in Hc, He. fold stopped in Hc, He. split; intros Hs.
  - rewrite (cancel_returns r s Hs) in Hc, He.
    assert (Ha : dict_get k (_conns (fst (fst stopped))) = None).
    { rewrite Hc. apply dict_get_absent. apply (dict_del_nodup k (_conns m) Hn). }
    split; [exact He |]. subst res.
    rewrite (start_socket_new k coro prefix _ Ha).
    cbn [fst snd _conns set_conns]. repeat split.
    + apply dict_get_set_same.
    + intros c Hne. rewrite dict_get_set_other by exact Hne.
      rewrite Hc. now apply dict_get_del_other.
  - rewrite (cancel_raises r s Hs) in Hc, He. cbn [fst snd] in Hc, He.
    assert (Ha : dict_get k (_conns (fst (fst stopped)))
                 = Some (set_conn (Some Cancelled) s)).
    { rewrite Hc. apply dict_get_set_same. }
    split; [exact He |]. split; [exact Ha |]. subst res.
    exact (start_socket_registered k coro prefix _ _ Ha).
Qed.

(** X12: [stop_socket] on an identifier that does not begin with the stored
    listen key touches neither the renewal timer, nor the stored key and
    callback, nor any other registered session. The identifier is not
    registered afterwards when the call returns; when its session is in its
    backoff sleep the call raises [RuntimeError] and the identifier stays
    registered, with its session cancelled. *)
Theorem stop_keeps_the_rest (r : Q) (k : string) (m : BinanceSocketManager) :
  registry_ok m ->
  is_user_conn k (_user_listen_key m) = false ->
  let m' := fst (fst (stop_socket r k m)) in
  _user_timer m' = _user_timer m
  /\ _user_listen_key m' = _user_listen_key m
  /\ _user_callback m' = _user_callback m
  /\ (forall c, c <> k -> dict_get c (_conns m') = dict_get c (_conns m))
  /\ (snd (stop_socket r k m) = Returns tt -> dict_get k (_conns m') = None)
  /\ (forall s, dict_get k (_conns m) = Some s ->
        _conn s <> Some (Suspended AtSleep) ->
        snd (stop_socket r k m) = Returns tt /\ dict_get k (_conns m') = None)
  /\ (forall s, dict_get k (_conns m) = Some s ->
        _conn s = Some (Suspended AtSleep) ->
        snd (stop_socket r k m) = Raises RuntimeError
        /\ dict_get k (_conns m') = Some (set_conn (Some Cancelled) s)).
Proof.
  intros [Hn _] Hu m'. subst m'.
  pose proof (stop_socket_conns r k m) as Hc.
  pose proof (stop_socket_ending r k m) as He.
  assert (Hf : _user_timer (fst (fst (stop_socket r k m))) = _user_timer m
               /\ _user_listen_key (fst (fst (stop_socket r k m))) = _user_listen_key m
               /\ _user_callback (fst (fst (stop_socket r k m))) = _user_callback m).
  { unfold stop_socket. destruct (dict_get k (_conns m)) as [s |]; [| now repeat split].
    destruct (cancel r s) as [[s1 t1] [u | e]]; [| now repeat split].
    cbn [_user_listen_key set_conns]. rewrite Hu. now repeat split. }
  destruct Hf as (H1 & H2 & H3).
  split; [exact H1 |]. split; [exact H2 |]. split; [exact H3 |].
  destruct (dict_get k (_conns m)) as [s |] eqn:E.
  - split; [| split; [| split]].
    + intros c Hne. rewrite Hc. destruct (snd (cancel r s)).
      * now apply dict_get_del_other.
      * now apply dict_get_set_other.
    + intros Hr. rewrite He in Hr. rewrite Hc, Hr.
      apply dict_get_absent. apply (dict_del_nodup k (_conns m) Hn).
    + intros s0 Hs0 Hsl. injection Hs0 as <-.
      rewrite (cancel_returns r s Hsl) in Hc, He.
      split; [exact He |]. rewrite Hc.
      apply dict_get_absent. apply (dict_del_nodup k (_conns m) Hn).
    + intros s0 Hs0 Hsl. injection Hs0 as <-.
      rewrite (cancel_raises r s Hsl) in Hc, He. cbn [fst snd] in Hc, He.
      split; [exact He |]. rewrite Hc. apply dict_get_set_same.
  - split; [| split; [| split]].
    + intros c _. now rewrite Hc.
    + intros _. now rewrite Hc.
    + intros s0 Hs0. discriminate Hs0.
    + intros s0 Hs0. discriminate Hs0.
Qed.

Lemma substring_length (n : nat) (c : string) :
  (n <= String.length c)%nat -> String.length (substring 0 n c) = n.
Proof.
  revert c. induction n as [| n IH]; intros c H.
  - destruct c; reflexivity.
  - destruct c as [| a c]; cbn in *; [lia |]. rewrite IH; [reflexivity | lia].
Qed.

Lemma is_user_conn_truthy (c : string) (key : option string) :
  is_user_conn c key = true -> truthy key = true.
Proof.
  unfold is_user_conn. destruct key as [k |]; [| now rewrite andb_false_r].
  rewrite andb_true_iff. intros [Hl He].
  apply Nat.leb_le in Hl. apply String.eqb_eq in He. subst k.
  pose proof (substring_length 60 c Hl) as Hlen.
  destruct (substring 0 60 c); [discriminate Hlen | reflexivity].
Qed.

(** ** Listen keys that do not have 60 characters *)

(** The test [len(conn_key) >= 60 and conn_key[:60] == self._user_listen_key]
    passes only when the stored key has exactly 60 characters. *)
Lemma is_user_conn_length (c k : string) :
  is_user_conn c (Some k) = true -> String.length k = 60%nat.
Proof.
  unfold is_user_conn. rewrite andb_true_iff. intros [Hl He].
  apply Nat.leb_le in Hl. apply String.eqb_eq in He. subst k.
  now apply substring_length.
Qed.

Lemma find_user_conn_none (k : string) (keys : list string) :
  String.length k <> 60%nat ->
  find (fun c => is_user_conn c (Some k)) keys = None.
Proof.
  intros H. induction keys as [| c keys IH]; [reflexivity |].
  cbn [find]. destruct (is_user_conn c (Some k)) eqn:E; [| exact IH].
  now apply is_user_conn_length in E.
Qed.

(** With a stored key of another length than 60, [_start_user_socket]
    stops nothing: it stores key and callback and goes on to
    [_start_socket]. *)
Lemma start_user_socket_no_cleanup (r : Q) (h : timer) (key old : string)
    (callback : option handler) (m : BinanceSocketManager) :
  _user_listen_key m = Some old ->
  String.length old <> 60%nat ->
  _start_user_socket r h key callback m
  = let m2 := set_user_callback callback (set_user_listen_key (Some key) m) in
    let '(conn_key, m3, t2) := _start_socket key callback "ws/" m2 in
    if truthy conn_key then
      let '(m4, t3) := _start_user_timer h m3 in (m4, [] ++ t2 ++ t3, Returns conn_key)
    else (m3, [] ++ t2, Returns conn_key).
Proof.
  intros Hk Hl. unfold _start_user_socket. rewrite Hk.
  rewrite (find_user_conn_none old _ Hl).
  destruct (truthy (Some old)); reflexivity.
Qed.

(** C10, on the code: the user stream is live under a stored listen key
    whose length is not 60 (the keys of the exchange have 64 characters),
    and [_start_user_socket] is called with that same key: the cleanup loop
    finds nothing to stop, so nothing is cancelled, the timer is not
    cancelled, the key is not revoked, no session is registered and no timer
    is armed; the call returns [None] with no event at all, and the only
    change is the stored callback. *)
Theorem start_user_socket_can_be_noop (r : Q) (h : timer) (key : string)
    (callback : option handler) (m : BinanceSocketManager)
    (s : ReconnectingWebsocket) :
  _user_listen_key m = Some key ->
  String.length key <> 60%nat ->
  dict_get key (_conns m) = Some s ->
  _start_user_socket r h key callback m
  = ({| _conns := _conns m; _user_timer := _user_timer m;
        _user_listen_key := Some key; _user_callback := callback |},
     [], Returns None).
Proof.
  intros Hk Hl Hg.
  rewrite (start_user_socket_no_cleanup r h key key callback m Hk Hl).
  cbv zeta.
  erewrite start_socket_registered by (cbn [_conns set_user_callback set_user_listen_key];
                                        exact Hg).
  reflexivity.
Qed.

(** C2, on the code. When the fresh key equals the stored one the timer is
    armed again and nothing else changes. When it differs and the stored key,
    under which the user stream is registered, has another length than 60
    (the keys of the exchange have 64 characters), there is no rotation: the
    old session is neither cancelled nor removed, the old timer is not
    cancelled, the old key is not revoked, and a second user session is
    registered under the fresh key, with the stored callback as its
    handler. *)
Theorem keepalive_leaves_old_session (r : Q) (h : timer) (key old : string)
    (m : BinanceSocketManager) (s : ReconnectingWebsocket) :
  _user_listen_key m = Some old ->
  (key = old ->
   _keepalive_user_socket r h key m
   = (set_user_timer (Some h) m,
      [Log DEBUG (MsgKeys key (Some old)); CallLater _user_timeout h], Returns tt))
  /\ (key <> old -> key <> ""%string ->
      String.length old <> 60%nat ->
      dict_get old (_conns m) = Some s ->
      dict_get key (_conns m) = None ->
      _keepalive_user_socket r h key m
      = ({| _conns := dict_set key (fst (new_session key (_user_callback m) "ws/"))
                               (_conns m);
            _user_timer := Some h; _user_listen_key := Some key;
            _user_callback := _user_callback m |},
         [Log DEBUG (MsgKeys key (Some old)); EnsureFuture key;
          CallLater _user_timeout h],
         Returns tt)
      /\ dict_get old (_conns (fst (fst (_keepalive_user_socket r h key m)))) = Some s
      /\ dict_get key (_conns (fst (fst (_keepalive_user_socket r h key m))))
         = Some (fst (new_session key (_user_callback m) "ws/"))).
Proof.
  intros Hk. split.
  - intros ->. unfold _keepalive_user_socket. rewrite Hk, String.eqb_refl. reflexivity.
  - intros Hne Hnon Hl Hg Hnew.
    assert (E : _keepalive_user_socket r h key m
                = ({| _conns := dict_set key (fst (new_session key (_user_callback m) "ws/"))
                                         (_conns m);
                      _user_timer := Some h; _user_listen_key := Some key;
                      _user_callback := _user_callback m |},
                   [Log DEBUG (MsgKeys key (Some old)); EnsureFuture key;
                    CallLater _user_timeout h],
                   Returns tt)).
    { unfold _keepalive_user_socket. rewrite Hk.
      destruct (String.eqb_spec key old) as [E | _]; [contradiction |]. cbn [negb].
      rewrite (start_user_socket_no_cleanup r h key old (_user_callback m) m Hk Hl).
      cbv zeta.
      rewrite start_socket_new
        by (cbn [_conns set_user_callback set_user_listen_key]; exact Hnew).
      rewrite (truthy_nonempty key Hnon). reflexivity. }
    rewrite E. cbn [fst snd _conns].
    split; [reflexivity |]. split.
    + rewrite dict_get_set_other by congruence. exact Hg.
    + apply dict_get_set_same.
Qed.

(** What a [stop_socket] does to the renewal state. *)
Lemma stop_socket_user_state (r : Q) (k : string) (m : BinanceSocketManager) :
  _user_callback (fst (fst (stop_socket r k m))) = _user_callback m
  /\ (dict_get k (_conns m) = None \/ is_user_conn k (_user_listen_key m) = false
      \/ snd (stop_socket r k m) <> Returns tt ->
      _user_timer (fst (fst (stop_socket r k m))) = _user_timer m
      /\ _user_listen_key (fst (fst (stop_socket r k m))) = _user_listen_key m)
  /\ (dict_get k (_conns m) <> None -> is_user_conn k (_user_listen_key m) = true ->
      snd (stop_socket r k m) = Returns tt ->
      _user_timer (fst (fst (stop_socket r k m))) = None
      /\ _user_listen_key (fst (fst (stop_socket r k m))) = None).
Proof.
  unfold stop_socket. destruct (dict_get k (_conns m)) as [s |] eqn:E.
  - destruct (cancel r s) as [[s1 t1] [[] | e]].
    + cbn [_user_listen_key set_conns].
      destruct (is_user_conn k (_user_listen_key m)) eqn:Eu.
      * pose proof (is_user_conn_truthy _ _ Eu) as Ht.
        unfold _stop_user_socket. cbn [_user_listen_key set_conns]. rewrite Ht.
        cbn. split; [reflexivity | split; [| auto]].
        intros [Hx | [Hx | Hx]]; [discriminate Hx | discriminate Hx | now destruct Hx].
      * cbn. split; [reflexivity | split; [auto | intros _ Hx; discriminate Hx]].
    + cbn. split; [reflexivity | split; [auto | intros _ _ Hx; discriminate Hx]].
  - cbn. split; [reflexivity | split; [auto | intros Hx; now destruct Hx]].
Qed.

Lemma stop_each_untouched (draw : string -> Q) (keys : list string) :
  forall m : BinanceSocketManager,
    (forall k, In k keys -> is_user_conn k (_user_listen_key m) = false) ->
    _user_timer (fst (fst (stop_each draw keys m))) = _user_timer m
    /\ _user_listen_key (fst (fst (stop_each draw keys m))) = _user_listen_key m.
Proof.
  induction keys as [| k0 keys IH]; intros m H; [now split |].
  cbn [stop_each].
  destruct (stop_socket_user_state (draw k0) k0 m) as (_ & Hs & _).
  destruct (Hs (or_intror (or_introl (H k0 (or_introl eq_refl))))) as [H1 H2].
  destruct (stop_socket (draw k0) k0 m) as [[m1 t1] [u | e]]; cbn [fst] in *;
    [| now split].
  destruct (IH m1) as [G1 G2].
  { intros k Hk. rewrite H2. apply H. now right. }
  destruct (stop_each draw keys m1) as [[m2 t2] res2]. cbn [fst] in *.
  split; congruence.
Qed.

Lemma stop_each_callback (draw : string -> Q) (keys : list string) :
  forall m : BinanceSocketManager,
    _user_callback (fst (fst (stop_each draw keys m))) = _user_callback m.
Proof.
  induction keys as [| k0 keys IH]; intros m; [reflexivity |].
  cbn [stop_each].
  destruct (stop_socket_user_state (draw k0) k0 m) as (Hc & _).
  destruct (stop_socket (draw k0) k0 m) as [[m1 t1] [u | e]]; cbn [fst] in *;
    [| exact Hc].
  specialize (IH m1).
  destruct (stop_each draw keys m1) as [[m2 t2] res2]. cbn [fst] in *. congruence.
Qed.

Lemma dict_get_in_pair {V : Type} (k : string) (d : dict V) (v : V) :
  dict_get k d = Some v -> In (k, v) d.
Proof.
  induction d as [| [k' v'] d IH]; cbn; [discriminate |].
  destruct (String.eqb_spec k k') as [-> | _]; [| auto].
  intros H. injection H as ->. now left.
Qed.

Lemma dict_del_in {V : Type} (k : string) (d : dict V) (x : string * V) :
  In x (dict_del k d) -> In x d.
Proof.
  induction d as [| [k' v'] d IH]; cbn; [tauto |].
  destruct (String.eqb_spec k k'); cbn; tauto.
Qed.

(** No registered session is in its backoff sleep. *)
Lemma stop_each_returns (draw : string -> Q) (keys : list string) :
  forall m : BinanceSocketManager,
    (forall k s, In (k, s) (_conns m) -> _conn s <> Some (Suspended AtSleep)) ->
    snd (stop_each draw keys m) = Returns tt.
Proof.
  induction keys as [| k0 keys IH]; intros m H; [reflexivity |].
  cbn [stop_each].
  pose proof (stop_socket_conns (draw k0) k0 m) as Hc.
  pose proof (stop_socket_ending (draw k0) k0 m) as He.
  assert (Hr : snd (stop_socket (draw k0) k0 m) = Returns tt).
  { rewrite He. destruct (dict_get k0 (_conns m)) as [s |] eqn:E; [| reflexivity].
    apply cancel_returns. exact (H k0 s (dict_get_in_pair _ _ _ E)). }
  assert (Hd : forall x, In x (_conns (fst (fst (stop_socket (draw k0) k0 m)))) ->
                         In x (_conns m)).
  { intros x. rewrite Hc. rewrite He in Hr.
    destruct (dict_get k0 (_conns m)); [rewrite Hr; apply dict_del_in | auto]. }
  clear Hc He.
  destruct (stop_socket (draw k0) k0 m) as [[m1 t1] res]. cbn [fst snd] in *.
  subst res.
  assert (H1 : snd (stop_each draw keys m1) = Returns tt).
  { apply IH. intros k s Hin. apply (H k s). exact (Hd _ Hin). }
  destruct (stop_each draw keys m1) as [[m2 t2] res2]. cbn in *. exact H1.
Qed.

Lemma stop_each_clears (draw : string -> Q) (keys : list string) :
  forall (m : BinanceSocketManager) (k : string) (s : ReconnectingWebsocket),
    (forall c x, In (c, x) (_conns m) -> _conn x <> Some (Suspended AtSleep)) ->
    In k keys -> dict_get k (_conns m) = Some s ->
    is_user_conn k (_user_listen_key m) = true ->
    _user_timer (fst (fst (stop_each draw keys m))) = None
    /\ _user_listen_key (fst (fst (stop_each draw keys m))) = None.
Proof.
  induction keys as [| k0 keys IH]; intros m k s Hns Hin Hg Hu; [destruct Hin |].
  cbn [stop_each].
  destruct (stop_socket_user_state (draw k0) k0 m) as (_ & Hkeep & Hclear).
  pose proof (stop_socket_conns (draw k0) k0 m) as Hc.
  pose proof (stop_socket_ending (draw k0) k0 m) as He.
  assert (Hr : snd (stop_socket (draw k0) k0 m) = Returns tt).
  { rewrite He. destruct (dict_get k0 (_conns m)) as [s0 |] eqn:E; [| reflexivity].
    apply cancel_returns. exact (Hns k0 s0 (dict_get_in_pair _ _ _ E)). }
  assert (Hc' : _conns (fst (fst (stop_socket (draw k0) k0 m)))
                = match dict_get k0 (_conns m) with
                  | Some _ => dict_del k0 (_conns m)
                  | None => _conns m
                  end).
  { rewrite Hc. rewrite He in Hr.
    destruct (dict_get k0 (_conns m)); [now rewrite Hr | reflexivity]. }
  clear Hc. rename Hc' into Hc.
  assert (Hns1 : forall c x, In (c, x) (_conns (fst (fst (stop_socket (draw k0) k0 m)))) ->
                             _conn x <> Some (Suspended AtSleep)).
  { intros c x Hi. apply (Hns c x). rewrite Hc in Hi.
    destruct (dict_get k0 (_conns m)); [exact (dict_del_in _ _ _ Hi) | exact Hi]. }
  clear He.
  destruct (dict_get k0 (_conns m)) as [s0 |] eqn:E0;
    [destruct (is_user_conn k0 (_user_listen_key m)) eqn:Eu0 |].
  - (* the head is a registered user stream *)
    destruct (Hclear ltac:(discriminate) eq_refl Hr) as [H1 H2].
    destruct (stop_socket (draw k0) k0 m) as [[m1 t1] res]. cbn [fst snd] in *.
    subst res.
    destruct (stop_each_untouched draw keys m1) as [G1 G2].
    { intros c _. rewrite H2. unfold is_user_conn. apply andb_false_r. }
    destruct (stop_each draw keys m1) as [[m2 t2] res2]. cbn [fst] in *.
    split; congruence.
  - destruct (Hkeep (or_intror (or_introl eq_refl))) as [H1 H2].
    assert (Hne : k <> k0) by (intros ->; congruence).
    destruct Hin as [-> | Hin]; [congruence |].
    destruct (stop_socket (draw k0) k0 m) as [[m1 t1] res]. cbn [fst snd] in *.
    subst res.
    destruct (IH m1 k s Hns1 Hin) as [G1 G2].
    { rewrite Hc. now rewrite dict_get_del_other. }
    { now rewrite H2. }
    destruct (stop_each draw keys m1) as [[m2 t2] res2]. cbn [fst] in *. now split.
  - destruct (Hkeep (or_introl eq_refl)) as [H1 H2].
    assert (Hne : k <> k0) by (intros ->; congruence).
    destruct Hin as [-> | Hin]; [congruence |].
    destruct (stop_socket (draw k0) k0 m) as [[m1 t1] res]. cbn [fst snd] in *.
    subst res.
    destruct (IH m1 k s Hns1 Hin) as [G1 G2].
    { now rewrite Hc. }
    { now rewrite H2. }
    destruct (stop_each draw keys m1) as [[m2 t2] res2]. cbn [fst] in *. now split.
Qed.

(** X13: what [close] does to the renewal state. The stored callback is
    always kept. When no identifier of the snapshot begins with the stored
    listen key (a 64-character key, for instance), the timer and the stored
    key are left as they were. When no registered session is in its backoff
    sleep, [close] returns, and it has then cleared the timer and the stored
    key if one of the identifiers it stopped is registered and begins with
    the stored key. *)
Theorem close_renewal_state (draw : string -> Q) (keys : list string)
    (m : BinanceSocketManager) :
  _user_callback (fst (fst (close draw keys m))) = _user_callback m
  /\ ((forall k, In k keys -> is_user_conn k (_user_listen_key m) = false) ->
      _user_timer (fst (fst (close draw keys m))) = _user_timer m
      /\ _user_listen_key (fst (fst (close draw keys m))) = _user_listen_key m)
  /\ ((forall k s, In (k, s) (_conns m) -> _conn s <> Some (Suspended AtSleep)) ->
      snd (close draw keys m) = Returns tt
      /\ ((exists k s, In k keys /\ dict_get k (_conns m) = Some s
                       /\ is_user_conn k (_user_listen_key m) = true) ->
          _user_timer (fst (fst (close draw keys m))) = None
          /\ _user_listen_key (fst (fst (close draw keys m))) = None)).
Proof.
  pose proof (stop_each_callback draw keys m) as Hcb.
  pose proof (stop_each_clears draw keys m) as Hcl.
  pose proof (stop_each_untouched draw keys m) as Hun.
  pose proof (stop_each_returns draw keys m) as Hre.
  unfold close. destruct (stop_each draw keys m) as [[m1 t] res].
  cbn [fst snd] in *.
  split; [destruct res; exact Hcb |].
  split; [destruct res; exact Hun |].
  intros Hns. rewrite (Hre Hns). cbn [fst snd _user_timer _user_listen_key set_conns].
  split; [reflexivity |].
  intros (k & s & Hin & Hg & Hu). exact (Hcl k s Hns Hin Hg Hu).
Qed.

Lemma start_user_socket_first (r : Q) (h : timer) (key : string)
    (cb : option handler) (m : BinanceSocketManager) :
  truthy (_user_listen_key m) = false ->
  key <> ""%string ->
  dict_get key (_conns m) = None ->
  _start_user_socket r h key cb m
  = ({| _conns := dict_set key (fst (new_session key cb "ws/")) (_conns m);
        _user_timer := Some h; _user_listen_key := Some key; _user_callback := cb |},
     [EnsureFuture key; CallLater _user_timeout h],
     Returns (Some key)).
Proof.
  intros Ht Hne Hg. unfold _start_user_socket. rewrite Ht.
  rewrite start_socket_new by exact Hg. rewrite (truthy_nonempty key Hne). reflexivity.
Qed.

(** X14: the user stream started on a manager that holds no listen key, and
    stopped by its 60-character key: the start registers the session, stores
    key and callback and arms the timer; the stop returns, having cancelled
    that timer and revoked the key, and leaves the registry as it was before
    the start, with no stored key and no timer. *)
Theorem user_stream_round_trip (r r' : Q) (h : timer) (key : string) (coro : handler)
    (m : BinanceSocketManager) :
  truthy (_user_listen_key m) = false ->
  String.length key = 60%nat ->
  dict_get key (_conns m) = None ->
  let started := start_user_socket r h key coro m in
  let stopped := stop_socket r' key (fst (fst started)) in
  snd started = Returns (Some key)
  /\ _user_timer (fst (fst started)) = Some h
  /\ _user_listen_key (fst (fst started)) = Some key
  /\ snd stopped = Returns tt
  /\ _conns (fst (fst stopped)) = _conns m
  /\ _user_timer (fst (fst stopped)) = None
  /\ _user_listen_key (fst (fst stopped)) = None
  /\ _user_callback (fst (fst stopped)) = Some coro
  /\ In (TimerCancel h) (snd (fst stopped))
  /\ In (StreamClose key) (snd (fst stopped)).
Proof.
  intros Ht Hl Hg started stopped. subst stopped started. unfold start_user_socket.
  assert (Hne : key <> ""%string) by (intros ->; discriminate Hl).
  rewrite (start_user_socket_first r h key (Some coro) m Ht Hne Hg).
  cbn [fst snd _user_timer _user_listen_key].
  erewrite stop_socket_user;
    [| reflexivity | exact Hl | cbn [_conns]; apply dict_get_set_same
     | cbn; discriminate].
  cbn [fst snd _conns _user_timer _user_listen_key _user_callback].
  rewrite (dict_del_set key _ _ Hg).
  repeat split; rewrite !in_app_iff; right; [left | right]; left; reflexivity.
Qed.

(** ** Closing, restarting and rotating while no session sleeps *)

Lemma stop_socket_trace (r : Q) (k : string) (m : BinanceSocketManager)
    (s : ReconnectingWebsocket) (ev : event) :
  dict_get k (_conns m) = Some s ->
  In ev (snd (fst (cancel r s))) -> In ev (snd (fst (stop_socket r k m))).
Proof.
  intros Hg Hin. unfold stop_socket. rewrite Hg.
  destruct (cancel r s) as [[s1 t1] [u | e]]; cbn [fst snd] in *; [| exact Hin].
  destruct (is_user_conn _ _); [| exact Hin].
  destruct (_stop_user_socket _) as [m2 t2]. cbn [fst snd]. apply in_or_app. now left.
Qed.

(** [stop_socket] on a manager none of whose sessions is in its backoff
    sleep. *)
Lemma stop_socket_awake (r : Q) (k : string) (m : BinanceSocketManager) :
  (forall c x, In (c, x) (_conns m) -> _conn x <> Some (Suspended AtSleep)) ->
  snd (stop_socket r k m) = Returns tt
  /\ _conns (fst (fst (stop_socket r k m)))
     = match dict_get k (_conns m) with
       | Some _ => dict_del k (_conns m)
       | None => _conns m
       end
  /\ (forall c x, In (c, x) (_conns (fst (fst (stop_socket r k m)))) ->
                  _conn x <> Some (Suspended AtSleep)).
Proof.
  intros Hns.
  pose proof (stop_socket_conns r k m) as Hc.
  pose proof (stop_socket_ending r k m) as He.
  assert (Hr : snd (stop_socket r k m) = Returns tt).
  { rewrite He. destruct (dict_get k (_conns m)) as [s |] eqn:E; [| reflexivity].
    apply cancel_returns. exact (Hns k s (dict_get_in_pair _ _ _ E)). }
  assert (Hc' : _conns (fst (fst (stop_socket r k m)))
                = match dict_get k (_conns m) with
                  | Some _ => dict_del k (_conns m)
                  | None => _conns m
                  end).
  { rewrite Hc. rewrite He in Hr.
    destruct (dict_get k (_conns m)); [now rewrite Hr | reflexivity]. }
  split; [exact Hr |]. split; [exact Hc' |].
  intros c x Hi. apply (Hns c x). rewrite Hc' in Hi.
  destruct (dict_get k (_conns m)); [exact (dict_del_in _ _ _ Hi) | exact Hi].
Qed.

Lemma stop_each_trace (draw : string -> Q) (keys : list string) :
  forall (m : BinanceSocketManager) (k : string) (s : ReconnectingWebsocket)
         (ev : event),
    (forall c x, In (c, x) (_conns m) -> _conn x <> Some (Suspended AtSleep)) ->
    In k keys -> dict_get k (_conns m) = Some s ->
    In ev (snd (fst (cancel (draw k) s))) ->
    In ev (snd (fst (stop_each draw keys m))).
Proof.
  induction keys as [| k0 keys IH]; intros m k s ev Hns Hin Hg Hev; [destruct Hin |].
  cbn [stop_each].
  destruct (stop_socket_awake (draw k0) k0 m Hns) as (Hr & Hc & Hns1).
  destruct (String.eqb_spec k0 k) as [-> | Hne].
  - pose proof (stop_socket_trace (draw k) k m s ev Hg Hev) as H1.
    destruct (stop_socket (draw k) k m) as [[m1 t1] res]. cbn [fst snd] in *.
    subst res.
    destruct (stop_each draw keys m1) as [[m2 t2] res2]. cbn [fst snd].
    apply in_or_app. now left.
  - destruct Hin as [E | Hin]; [contradiction |].
    assert (Hg1 : dict_get k (_conns (fst (fst (stop_socket (draw k0) k0 m)))) = Some s).
    { rewrite Hc. destruct (dict_get k0 (_conns m)); [| exact Hg].
      rewrite dict_get_del_other; [exact Hg | congruence]. }
    pose proof (IH _ k s ev Hns1 Hin Hg1 Hev) as H2.
    destruct (stop_socket (draw k0) k0 m) as [[m1 t1] res]. cbn [fst snd] in *.
    subst res.
    destruct (stop_each draw keys m1) as [[m2 t2] res2]. cbn [fst snd] in *.
    apply in_or_app. now right.
Qed.

Lemma stop_each_empties (draw : string -> Q) (keys : list string) :
  forall m : BinanceSocketManager,
    (forall c x, In (c, x) (_conns m) -> _conn x <> Some (Suspended AtSleep)) ->
    NoDup (dict_keys (_conns m)) ->
    (forall k, In k (dict_keys (_conns m)) -> In k keys) ->
    _conns (fst (fst (stop_each draw keys m))) = [].
Proof.
  induction keys as [| k0 keys IH]; intros m Hns Hn Hsub.
  - cbn. destruct (_conns m) as [| [k v] d]; [reflexivity |].
    destruct (Hsub k). cbn. auto.
  - cbn [stop_each].
    destruct (stop_socket_awake (draw k0) k0 m Hns) as (Hr & Hc & Hns1).
    assert (H1 : NoDup (dict_keys (_conns (fst (fst (stop_socket (draw k0) k0 m)))))
                 /\ forall k,
                     In k (dict_keys (_conns (fst (fst (stop_socket (draw k0) k0 m)))))
                     -> In k keys).
    { rewrite Hc. destruct (dict_get k0 (_conns m)) eqn:E.
      - destruct (dict_del_nodup k0 (_conns m) Hn) as [Hd Hk]. split; [exact Hd |].
        intros k Hi. destruct (Hsub k (dict_del_keys _ _ _ Hi)) as [<- | ?]; tauto.
      - split; [exact Hn |]. intros k Hi.
        destruct (Hsub k Hi) as [<- | ?]; [| assumption].
        destruct (dict_get_none _ _ E Hi). }
    destruct H1 as [Hn1 Hsub1]. pose proof (IH _ Hns1 Hn1 Hsub1) as H2.
    destruct (stop_socket (draw k0) k0 m) as [[m1 t1] res]. cbn [fst snd] in *.
    subst res.
    destruct (stop_each draw keys m1) as [[m2 t2] res2]. exact H2.
Qed.

(** X19: [close] on a manager none of whose sessions is in its backoff
    sleep, the snapshot visited in any order. The call returns; the stops
    alone already empty the registry; every transport a registered session
    held is closed. But every session whose task was inside [_run] with
    budget left is reconnecting when [close] returns: a new task has been
    created for it and is opening its URL, and the session is no longer
    registered. *)
Theorem close_leaves_sessions_reconnecting (draw : string -> Q) (keys : list string)
    (m : BinanceSocketManager) :
  NoDup (dict_keys (_conns m)) ->
  Permutation keys (dict_keys (_conns m)) ->
  (forall k s, In (k, s) (_conns m) -> _conn s <> Some (Suspended AtSleep)) ->
  snd (close draw keys m) = Returns tt
  /\ _conns (fst (fst (close draw keys m))) = []
  /\ _conns (fst (fst (stop_each draw keys m))) = []
  /\ (forall k s sock,
        dict_get k (_conns m) = Some s -> _socket s = Some sock ->
        In (Close sock) (snd (fst (close draw keys m))))
  /\ (forall k s p,
        dict_get k (_conns m) = Some s ->
        _conn s = Some (Suspended p) -> p <> AtStart ->
        _reconnects s + 1 < MAX_RECONNECTS ->
        In (TaskCancel (_path s)) (snd (fst (close draw keys m)))
        /\ In (EnsureFuture (_path s)) (snd (fst (close draw keys m)))
        /\ In (Connect (ws_url s)) (snd (fst (close draw keys m)))).
Proof.
  intros Hn Hp Hns.
  assert (Hin : forall k s, dict_get k (_conns m) = Some s -> In k keys).
  { intros k s Hg. eapply Permutation_in; [apply Permutation_sym; exact Hp |].
    eapply dict_get_in; eauto. }
  assert (He : _conns (fst (fst (stop_each draw keys m))) = []).
  { apply stop_each_empties; [exact Hns | exact Hn |].
    intros k Hi. eapply Permutation_in; [apply Permutation_sym; exact Hp | exact Hi]. }
  pose proof (stop_each_returns draw keys m Hns) as Hr.
  assert (Ht : snd (fst (close draw keys m)) = snd (fst (stop_each draw keys m))).
  { unfold close. destruct (stop_each draw keys m) as [[m1 t] [u | e]]; reflexivity. }
  split; [| split; [| split; [exact He | split]]].
  - unfold close. destruct (stop_each draw keys m) as [[m1 t] res].
    cbn [snd] in Hr. subst res. reflexivity.
  - unfold close. destruct (stop_each draw keys m) as [[m1 t] res].
    cbn [snd] in Hr. subst res. reflexivity.
  - intros k s sock Hg Hs. rewrite Ht.
    apply (stop_each_trace draw keys m k s _ Hns (Hin k s Hg) Hg).
    now apply cancel_closes.
  - intros k s p Hg Hc Hp1 Hb. rewrite Ht.
    assert (Hp2 : p <> AtSleep).
    { intros ->. exact (Hns k s (dict_get_in_pair _ _ _ Hg) Hc). }
    destruct (cancel_running_trace (draw k) p s Hc Hp1 Hp2 Hb) as (H0 & H1 & H5).
    split; [| split].
    + exact (stop_each_trace draw keys m k s _ Hns (Hin k s Hg) Hg H0).
    + exact (stop_each_trace draw keys m k s _ Hns (Hin k s Hg) Hg H1).
    + exact (stop_each_trace draw keys m k s _ Hns (Hin k s Hg) Hg H5).
Qed.

Lemma find_unique {A : Type} (f : A -> bool) (l : list A) (x : A) :
  In x l -> f x = true ->
  (forall y, In y l -> f y = true -> y = x) ->
  find f l = Some x.
Proof.
  induction l as [| a l IH]; intros Hin Hf Hu; [destruct Hin |].
  simpl. destruct (f a) eqn:E.
  - f_equal. apply Hu; simpl; auto.
  - destruct Hin as [-> | Hin]; [congruence |].
    apply IH; auto. intros y Hy. apply Hu. simpl; auto.
Qed.

(** [_start_user_socket] on a manager whose stored listen key has 60
    characters and names a registered session that is not in its backoff
    sleep. *)
Lemma start_user_socket_replaces (r : Q) (h : timer) (k k' : string)
    (cb : option handler) (m : BinanceSocketManager) (s : ReconnectingWebsocket) :
  _user_listen_key m = Some k ->
  String.length k = 60%nat ->
  dict_get k (_conns m) = Some s ->
  NoDup (dict_keys (_conns m)) ->
  (forall c, In c (dict_keys (_conns m)) -> is_user_conn c (Some k) = true -> c = k) ->
  k' <> ""%string ->
  k' = k \/ dict_get k' (_conns m) = None ->
  _conn s <> Some (Suspended AtSleep) ->
  _start_user_socket r h k' cb m
  = ({| _conns := dict_set k' (fst (new_session k' cb "ws/")) (dict_del k (_conns m));
        _user_timer := Some h; _user_listen_key := Some k'; _user_callback := cb |},
     (snd (fst (cancel r s))
        ++ match _user_timer m with Some h0 => [TimerCancel h0] | None => [] end
        ++ [StreamClose k])
       ++ [EnsureFuture k'] ++ [CallLater _user_timeout h],
     Returns (Some k')).
Proof.
  intros Hk Hl Hg Hn Hu Hne Hfresh Hs. unfold _start_user_socket.
  rewrite Hk, (truthy_length k Hl).
  rewrite (find_unique _ _ k (dict_get_in _ _ _ Hg) (is_user_conn_self k Hl) Hu).
  rewrite (stop_socket_user r k m s Hk Hl Hg Hs).
  assert (Ha : dict_get k' (dict_del k (_conns m)) = None).
  { destruct Hfresh as [-> | Hfr].
    - apply dict_get_absent. apply (dict_del_nodup k (_conns m) Hn).
    - destruct (String.eqb_spec k' k) as [-> | Hd]; [congruence |].
      now rewrite dict_get_del_other. }
  rewrite start_socket_new by exact Ha.
  rewrite (truthy_nonempty k' Hne). reflexivity.
Qed.

(** X20: [_start_user_socket] on a manager whose stored listen key has
    exactly 60 characters and is the one registered identifier that begins
    with it, for a non-empty new key that is the stored key or not
    registered. When the old session is not in its backoff sleep the call
    cancels it and removes it, cancels the timer, revokes the old key, then
    registers a new session under the new key with the given handler, arms
    the timer and returns the new key. When the old session is in its
    backoff sleep, the [RuntimeError] of its [cancel] ends the call: the old
    session stays registered with its task cancelled, the old key, callback
    and timer stay stored, nothing is revoked and nothing is started. *)
Theorem start_user_socket_restarts (r : Q) (h : timer) (k k' : string)
    (cb : option handler) (m : BinanceSocketManager) (s : ReconnectingWebsocket) :
  _user_listen_key m = Some k ->
  String.length k = 60%nat ->
  dict_get k (_conns m) = Some s ->
  NoDup (dict_keys (_conns m)) ->
  (forall c, In c (dict_keys (_conns m)) -> is_user_conn c (Some k) = true -> c = k) ->
  k' <> ""%string ->
  k' = k \/ dict_get k' (_conns m) = None ->
  (_conn s <> Some (Suspended AtSleep) ->
   _start_user_socket r h k' cb m
   = ({| _conns := dict_set k' (fst (new_session k' cb "ws/")) (dict_del k (_conns m));
         _user_timer := Some h; _user_listen_key := Some k'; _user_callback := cb |},
      (snd (fst (cancel r s))
         ++ match _user_timer m with Some h0 => [TimerCancel h0] | None => [] end
         ++ [StreamClose k])
        ++ [EnsureFuture k'] ++ [CallLater _user_timeout h],
      Returns (Some k')))
  /\ (_conn s = Some (Suspended AtSleep) ->
      _start_user_socket r h k' cb m
      = (set_conns (dict_set k (set_conn (Some Cancelled) s) (_conns m)) m,
         snd (fst (cancel r s)), Raises RuntimeError)
      /\ forall ev, In ev (snd (fst (cancel r s))) ->
                    ev <> StreamClose k /\ ev <> EnsureFuture k'
                    /\ forall h0, ev <> TimerCancel h0 /\ ev <> CallLater _user_timeout h0).
Proof.
  intros Hk Hl Hg Hn Hu Hne Hfresh.
  assert (Hf : find (fun conn_key => is_user_conn conn_key (_user_listen_key m))
                    (dict_keys (_conns m)) = Some k).
  { rewrite Hk.
    exact (find_unique _ _ k (dict_get_in _ _ _ Hg) (is_user_conn_self k Hl) Hu). }
  split.
  - intros Hs.
    exact (start_user_socket_replaces r h k k' cb m s Hk Hl Hg Hn Hu Hne Hfresh Hs).
  - intros Hs. split.
    + unfold _start_user_socket. rewrite Hf, Hk, (truthy_length k Hl).
      unfold stop_socket. rewrite Hg, (cancel_raises r s Hs). reflexivity.
    + rewrite (cancel_raises r s Hs). cbn [fst snd]. intros ev Hin.
      rewrite !in_app_iff in Hin.
      destruct Hin as [[E | []] | [Hin | [[E | [E | []]] | []]]];
        try (subst ev; repeat split; try intros h0; try split; discriminate).
      destruct (_socket s); [| destruct Hin].
      destruct Hin as [E | [E | [E | []]]];
        subst ev; repeat split; try intros h0; try split; discriminate.
Qed.

(** X21: the renewal of a stored 60-character listen key, the one
    registered identifier that begins with it, by a different non-empty key
    that is not registered, the old session not being in its backoff sleep:
    one rotation. Afterwards the old key is not registered, the new key maps
    to a new session whose handler is the stored callback, every other entry
    of the registry is as before, the old timer is cancelled, the old key is
    revoked and the timer is armed again. The old session itself, when its
    task was inside [_run] with budget left, is left reconnecting to the
    stream of the old key. *)
Theorem keepalive_rotates (r : Q) (h : timer) (k k' : string)
    (m : BinanceSocketManager) (s : ReconnectingWebsocket) :
  _user_listen_key m = Some k ->
  String.length k = 60%nat ->
  dict_get k (_conns m) = Some s ->
  NoDup (dict_keys (_conns m)) ->
  (forall c, In c (dict_keys (_conns m)) -> is_user_conn c (Some k) = true -> c = k) ->
  k' <> ""%string -> k' <> k ->
  dict_get k' (_conns m) = None ->
  _conn s <> Some (Suspended AtSleep) ->
  let res := _keepalive_user_socket r h k' m in
  let m' := fst (fst res) in
  snd res = Returns tt
  /\ dict_get k (_conns m') = None
  /\ dict_get k' (_conns m')
     = Some {| _path := k'; _coro := _user_callback m; _prefix := "ws/";
               _reconnects := 0; _conn := Some (Suspended AtStart); _socket := None |}
  /\ (forall c, c <> k -> c <> k' -> dict_get c (_conns m') = dict_get c (_conns m))
  /\ _user_listen_key m' = Some k'
  /\ _user_callback m' = _user_callback m
  /\ _user_timer m' = Some h
  /\ (forall h0, _user_timer m = Some h0 -> In (TimerCancel h0) (snd (fst res)))
  /\ In (StreamClose k) (snd (fst res))
  /\ In (CallLater _user_timeout h) (snd (fst res))
  /\ (forall p, _conn s = Some (Suspended p) -> p <> AtStart ->
                _reconnects s + 1 < MAX_RECONNECTS ->
                In (Connect (ws_url s)) (snd (fst res))).
Proof.
  intros Hk Hl Hg Hn Hu Hne Hd Hnew Hs res m'. subst m' res.
  pose proof (start_user_socket_replaces r h k k' (_user_callback m) m s
                Hk Hl Hg Hn Hu Hne (or_intror Hnew) Hs) as E.
  unfold _keepalive_user_socket. rewrite Hk.
  destruct (String.eqb_spec k' k) as [E0 | _]; [contradiction |]. cbn [negb].
  rewrite E. cbn [fst snd _conns _user_listen_key _user_callback _user_timer].
  split; [reflexivity |]. split.
  { rewrite dict_get_set_other by congruence.
    apply dict_get_absent. apply (dict_del_nodup k (_conns m) Hn). }
  split; [apply dict_get_set_same |]. split.
  { intros c H1 H2. rewrite dict_get_set_other by exact H2.
    now rewrite dict_get_del_other. }
  split; [reflexivity |]. split; [reflexivity |]. split; [reflexivity |].
  split; [| split; [| split]].
  - intros h0 E1. rewrite E1, !in_app_iff. right. left. right. left. left. reflexivity.
  - rewrite !in_app_iff. right. left. right. right. left. reflexivity.
  - rewrite !in_app_iff. right. right. right. left. reflexivity.
  - intros p Hc Hp1 Hb.
    assert (Hp2 : p <> AtSleep) by (intros ->; exact (Hs Hc)).
    destruct (cancel_running_trace r p s Hc Hp1 Hp2 Hb) as (_ & _ & H5).
    rewrite !in_app_iff. right. left. left. exact H5.
Qed.

(** X15: the session registered by [start_trade_socket] opens
    [wss://stream.binance.com:9443/ws/<symbol in lower case>@trade] on its
    first step, and the one registered by [start_multiplex_socket] opens
    [wss://stream.binance.com:9443/stream?streams=<names joined by />]. *)
Theorem started_session_url (r : Q) (symbol : string) (streams : list string)
    (coro : handler) (m : BinanceSocketManager) :
  dict_get (lower symbol ++ "@trade") (_conns m) = None ->
  dict_get ("streams=" ++ String.concat "/" streams) (_conns m) = None ->
  (exists s,
      dict_get (lower symbol ++ "@trade")
               (_conns (snd (fst (start_trade_socket symbol coro m)))) = Some s
      /\ resume r Step s
         = Some (suspend AtConnect s,
                 [Connect ("wss://stream.binance.com:9443/ws/" ++ lower symbol
                             ++ "@trade")]))
  /\ (exists s,
        dict_get ("streams=" ++ String.concat "/" streams)
                 (_conns (snd (fst (start_multiplex_socket streams coro m)))) = Some s
        /\ resume r Step s
           = Some (suspend AtConnect s,
                   [Connect ("wss://stream.binance.com:9443/stream?streams="
                               ++ String.concat "/" streams)])).
Proof.
  intros H1 H2. split.
  - unfold start_trade_socket. rewrite (start_socket_new _ _ _ m H1).
    cbn [fst snd _conns set_conns]. rewrite dict_get_set_same.
    eexists. split; reflexivity.
  - unfold start_multiplex_socket. rewrite (start_socket_new _ _ _ m H2).
    cbn [fst snd _conns set_conns]. rewrite dict_get_set_same.
    eexists. split; reflexivity.
Qed.

(** ** Stream names *)

Lemma str_length_append (a b : string) :
  String.length (a ++ b) = (String.length a + String.length b)%nat.
Proof. induction a as [| c a IH]; cbn; [reflexivity | now rewrite IH]. Qed.

Lemma str_append_inj_l (p a b : string) : (p ++ a = p ++ b)%string -> a = b.
Proof.
  induction p as [| c p IH]; cbn; intros H; [exact H |].
  injection H as H. exact (IH H).
Qed.

Lemma str_append_inj_r (a b c : string) : (a ++ c = b ++ c)%string -> a = b.
Proof.
  revert b. induction a as [| x a IH]; intros [| y b] H; cbn in H.
  - reflexivity.
  - exfalso. apply (f_equal String.length) in H. cbn in H.
    rewrite str_length_append in H. lia.
  - exfalso. apply (f_equal String.length) in H. cbn in H.
    rewrite str_length_append in H. lia.
  - injection H as -> H. f_equal. exact (IH b H).
Qed.

Lemma py_str_int_inj (a b : Z) : py_str_int a = py_str_int b -> a = b.
Proof.
  unfold py_str_int. intros H.
  apply (f_equal NilEmpty.int_of_string) in H. rewrite !NilEmpty.isi in H.
  injection H as H. now apply DecimalZ.to_int_inj.
Qed.

(** X16: [start_depth_socket] names the diff stream [<symbol>@depth] when
    the depth is [None], [0], the empty string or the string ["1"], and is
    then a no-op once that stream is registered; any other depth is appended
    to the name, the int [1] included. *)
Theorem depth_stream_names (symbol : string) (coro : handler)
    (m : BinanceSocketManager) :
  let base := (lower symbol ++ "@depth")%string in
  (forall depth,
      depth = PyNone \/ depth = PyInt 0 \/ depth = PyStr "" \/ depth = PyStr "1" ->
      fst (fst (start_depth_socket symbol coro depth m)) = base
      /\ forall s, dict_get base (_conns m) = Some s ->
                   start_depth_socket symbol coro depth m = (base, m, []))
  /\ (forall z, z <> 0 ->
        fst (fst (start_depth_socket symbol coro (PyInt z) m))
        = (base ++ py_str_int z)%string)
  /\ (forall d, d <> ""%string -> d <> "1"%string ->
        fst (fst (start_depth_socket symbol coro (PyStr d) m)) = (base ++ d)%string)
  /\ fst (fst (start_depth_socket symbol coro (PyInt 1) m)) = (base ++ "1")%string.
Proof.
  intros base. unfold start_depth_socket. fold base.
  split; [| split; [| split]].
  - intros depth [-> | [-> | [-> | ->]]]; cbn [py_truthy py_ne_str andb negb Z.eqb String.eqb Ascii.eqb Bool.eqb];
      (split; [destruct (_start_socket base (Some coro) "ws/" m) as [[ck m1] t]; reflexivity
              | intros s Hs; now rewrite (start_socket_registered base _ _ m s Hs)]).
  - intros z Hz. cbn [py_truthy py_ne_str py_format].
    destruct (Z.eqb_spec z 0) as [E | _]; [contradiction |]. cbn [negb andb].
    destruct (_start_socket _ (Some coro) "ws/" m) as [[ck m1] t]. reflexivity.
  - intros d H1 H2. cbn [py_truthy py_ne_str py_format].
    destruct (String.eqb_spec d "") as [E | _]; [contradiction |].
    destruct (String.eqb_spec d "1") as [E | _]; [contradiction |]. cbn [negb andb].
    destruct (_start_socket _ (Some coro) "ws/" m) as [[ck m1] t]. reflexivity.
  - cbn [py_truthy py_ne_str py_format andb negb Z.eqb].
    destruct (_start_socket _ (Some coro) "ws/" m) as [[ck m1] t]. reflexivity.
Qed.

(** X17: two mini-ticker streams with different update times have different
    identifiers, so starting both registers two sessions, each with its own
    handler; an update time of [None] gives the identifier
    [!miniTicker@arr@Nonems]. *)
Theorem miniticker_streams_distinct (h1 h2 : handler) (u1 u2 : Z)
    (m : BinanceSocketManager) :
  u1 <> u2 ->
  let p1 := ("!miniTicker@arr@" ++ py_str_int u1 ++ "ms")%string in
  let p2 := ("!miniTicker@arr@" ++ py_str_int u2 ++ "ms")%string in
  let m1 := snd (fst (start_miniticker_socket h1 (PyInt u1) m)) in
  let m2 := snd (fst (start_miniticker_socket h2 (PyInt u2) m1)) in
  p1 <> p2
  /\ fst (fst (start_miniticker_socket h1 (PyInt u1) m)) = p1
  /\ fst (fst (start_miniticker_socket h1 PyNone m)) = "!miniTicker@arr@Nonems"%string
  /\ (dict_get p1 (_conns m) = None -> dict_get p2 (_conns m) = None ->
      exists s1 s2,
        dict_get p1 (_conns m2) = Some s1 /\ _coro s1 = Some h1
        /\ dict_get p2 (_conns m2) = Some s2 /\ _coro s2 = Some h2).
Proof.
  intros Hne p1 p2 m1 m2.
  assert (Hp : p1 <> p2).
  { intros E. apply Hne. apply py_str_int_inj.
    apply (str_append_inj_r _ _ "ms"). exact (str_append_inj_l _ _ _ E). }
  split; [exact Hp |]. subst m2 m1. unfold start_miniticker_socket.
  cbn [py_format]. fold p1 p2.
  split; [destruct (_start_socket p1 (Some h1) "ws/" m) as [[ck mm] t]; reflexivity |].
  split; [destruct (_start_socket _ (Some h1) "ws/" m) as [[ck mm] t]; reflexivity |].
  intros H1 H2. rewrite (start_socket_new p1 _ _ m H1). cbn [fst snd].
  rewrite start_socket_new
    by (cbn [_conns set_conns]; rewrite dict_get_set_other by congruence; exact H2).
  cbn [fst snd _conns set_conns]. eexists _, _.
  split; [rewrite dict_get_set_other by exact Hp; apply dict_get_set_same |].
  split; [reflexivity |]. split; [apply dict_get_set_same | reflexivity].
Qed.

(** ** Arithmetic of the backoff delay *)

Lemma py_round_bounds (a b : Z) (x : Q) :
  (inject_Z a <= x)%Q -> (x <= inject_Z b)%Q -> a <= py_round x <= b.
Proof.
  intros Ha Hb.
  assert (Hfa : a <= Qfloor x).
  { rewrite <- (Qfloor_Z a). now apply Qfloor_resp_le. }
  assert (Hfb : Qfloor x <= b).
  { rewrite <- (Qfloor_Z b). now apply Qfloor_resp_le. }
  unfold py_round.
  destruct (Z.eq_dec (Qfloor x) b) as [E | NE].
  - assert (Hx : (x - inject_Z (Qfloor x) <= 0)%Q).
    { rewrite E. unfold Qminus. rewrite <- (Qplus_opp_r (inject_Z b)).
      apply Qplus_le_compat; [exact Hb | apply Qle_refl]. }
    assert (Hlt : (x - inject_Z (Qfloor x) < 1 # 2)%Q).
    { eapply Qle_lt_trans; [exact Hx | reflexivity]. }
    apply Qlt_alt in Hlt.
    destruct (Qcompare (x - inject_Z (Qfloor x)) (1 # 2)) eqn:Ec;
      [ | lia | ]; exfalso;
      pose proof (eq_trans (eq_sym Ec) Hlt) as Hd; discriminate Hd.
  - destruct (Qcompare _ _); [destruct (Z.even _) | | ]; lia.
Qed.

Section BackoffBounds.

(** A rounding to the nearest float is monotone and leaves the integers up
    to 61 in place. *)
Hypothesis fl_mono : forall a b : Q, (a <= b)%Q -> (fl a <= fl b)%Q.
Hypothesis fl_int : forall z : Z, 0 <= z <= 61 -> (fl (inject_Z z) == inject_Z z)%Q.

Lemma fl_between (lo hi : Z) (x : Q) :
  0 <= lo <= 61 -> 0 <= hi <= 61 ->
  (inject_Z lo <= x)%Q -> (x <= inject_Z hi)%Q ->
  (inject_Z lo <= fl x)%Q /\ (fl x <= inject_Z hi)%Q.
Proof using fl_mono fl_int.
  intros Hlo Hhi H1 H2. split.
  - rewrite <- (fl_int lo Hlo). now apply fl_mono.
  - rewrite <- (fl_int hi Hhi). now apply fl_mono.
Qed.

(** C4: for 1 <= n < 20 and a drawn value r in [0,1], the backoff delay
    round(r * min(60, 2^n - 1) + 1) lies in [1, min(60, 2^n - 1) + 1]. *)
Theorem reconnect_wait_bounds (n : Z) (r : Q) :
  1 <= n < 20 -> (0 <= r)%Q -> (r <= 1)%Q ->
  1 <= _get_reconnect_wait fl n r <= Z.min 60 (2 ^ n - 1) + 1.
Proof using fl_mono fl_int.
  intros Hn Hr0 Hr1. unfold _get_reconnect_wait, MAX_RECONNECT_SECONDS.
  set (m := Z.min 60 (2 ^ n - 1)).
  assert (Hm : 1 <= m <= 60).
  { assert (2 ^ 1 <= 2 ^ n) by (apply Z.pow_le_mono_r; lia).
    change (2 ^ 1) with 2 in *. unfold m. lia. }
  assert (Hp0 : (inject_Z 0 <= r * inject_Z m)%Q).
  { change (inject_Z 0) with 0%Q. apply Qmult_le_0_compat; [exact Hr0 |].
    change 0%Q with (inject_Z 0). rewrite <- Zle_Qle. lia. }
  assert (Hp1 : (r * inject_Z m <= inject_Z m)%Q).
  { rewrite <- (Qmult_1_l (inject_Z m)) at 2.
    apply Qmult_le_compat_r; [exact Hr1 |].
    change 0%Q with (inject_Z 0). rewrite <- Zle_Qle. lia. }
  destruct (fl_between 0 m _ ltac:(lia) ltac:(lia) Hp0 Hp1) as [Hq0 Hq1].
  assert (Hs0 : (inject_Z 1 <= fl (r * inject_Z m) + 1)%Q).
  { change (inject_Z 1) with (0 + 1)%Q.
    apply Qplus_le_compat; [exact Hq0 | apply Qle_refl]. }
  assert (Hs1 : (fl (r * inject_Z m) + 1 <= inject_Z (m + 1))%Q).
  { rewrite inject_Z_plus. apply Qplus_le_compat; [exact Hq1 | apply Qle_refl]. }
  destruct (fl_between 1 (m + 1) _ ltac:(lia) ltac:(lia) Hs0 Hs1) as [Ht0 Ht1].
  now apply py_round_bounds.
Qed.

Lemma wait_in_range (n : Z) (r : Q) :
  1 <= n -> (0 <= r)%Q -> (r <= 1)%Q ->
  1 <= _get_reconnect_wait fl n r <= 61.
Proof using fl_mono fl_int.
  intros Hn Hr0 Hr1. unfold _get_reconnect_wait, MAX_RECONNECT_SECONDS.
  set (m := Z.min 60 (2 ^ n - 1)).
  assert (Hm : 1 <= m <= 60).
  { assert (2 ^ 1 <= 2 ^ n) by (apply Z.pow_le_mono_r; lia).
    change (2 ^ 1) with 2 in *. unfold m. lia. }
  assert (Hp0 : (inject_Z 0 <= r * inject_Z m)%Q).
  { change (inject_Z 0) with 0%Q. apply Qmult_le_0_compat; [exact Hr0 |].
    change 0%Q with (inject_Z 0). rewrite <- Zle_Qle. lia. }
  assert (Hp1 : (r * inject_Z m <= inject_Z 60)%Q).
  { apply Qle_trans with (inject_Z m).
    - rewrite <- (Qmult_1_l (inject_Z m)) at 2.
      apply Qmult_le_compat_r; [exact Hr1 |].
      change 0%Q with (inject_Z 0). rewrite <- Zle_Qle. lia.
    - rewrite <- Zle_Qle. lia. }
  destruct (fl_between 0 60 _ ltac:(lia) ltac:(lia) Hp0 Hp1) as [Hq0 Hq1].
  assert (Hs0 : (inject_Z 1 <= fl (r * inject_Z m) + 1)%Q).
  { change (inject_Z 1) with (0 + 1)%Q.
    apply Qplus_le_compat; [exact Hq0 | apply Qle_refl]. }
  assert (Hs1 : (fl (r * inject_Z m) + 1 <= inject_Z 61)%Q).
  { change (inject_Z 61) with (inject_Z 60 + 1)%Q.
    apply Qplus_le_compat; [exact Hq1 | apply Qle_refl]. }
  destruct (fl_between 1 61 _ ltac:(lia) ltac:(lia) Hs0 Hs1) as [Ht0 Ht1].
  now apply py_round_bounds.
Qed.

(** X8: along any script whose draws lie in [0, 1], every backoff sleep of
    a session lasts between 1 and 61 seconds. *)
Theorem backoff_sleeps_bounded (script : list (Q * input))
    (s s' : ReconnectingWebsocket) (t : trace) (w : Z) :
  session_ok s = true ->
  draws_ok script ->
  run script s = Some (s', t) ->
  In (Sleep w) t ->
  1 <= w <= 61.
Proof using fl_mono fl_int.
  revert s t. induction script as [| [r i] script IH]; intros s t Hok Hd H Hin.
  - injection H as _ <-. destruct Hin.
  - cbn [run] in H. destruct (resume r i s) as [[s1 t1] |] eqn:E; [| discriminate].
    destruct (run script s1) as [[s2 t2] |] eqn:E2; [| discriminate].
    injection H as <- <-. inversion Hd as [| ? ? [Hr0 Hr1] Hd']; subst.
    rewrite in_app_iff in Hin. destruct Hin as [Hin | Hin].
    + destruct (reconnect_sleep r s w (resume_sleep r i s s1 t1 w E Hin)) as [Hb ->].
      apply wait_in_range; [| exact Hr0 | exact Hr1].
      pose proof (session_ok_range s Hok). lia.
    + exact (IH s1 t2 (resume_ok r i s s1 t1 Hok E) Hd' E2 Hin).
Qed.

End BackoffBounds.

End Model.

(** ** The theorems at sample inputs

    The document type is [unit], nothing decodes, floats are exact and
    [str.lower] is the identity. *)

Lemma reconnect_wait_bounds_witness :
  1 <= _get_reconnect_wait (fun q => q) 3 (1 # 2) <= Z.min 60 (2 ^ 3 - 1) + 1.
Proof.
  apply (reconnect_wait_bounds (fun q => q)).
  - intros a b H; exact H.
  - intros z _; reflexivity.
  - lia.
  - discriminate.
  - discriminate.
Defined.

(** The first reconnect of a session sleeps and reconnects, the twentieth
    ends the task. *)
Lemma reconnect_budget_witness :
  _conn (fst (_reconnect unit (fun q => q) (1 # 2) connecting_session))
    = Some (Suspended AtSleep)
  /\ _conn (fst (_reconnect unit (fun q => q) (1 # 2) worn_session)) = Some Finished.
Proof.
  split.
  - apply (reconnect_budget unit (fun _ => None) (fun q => q)
             (1 # 2) connecting_session).
    vm_compute. reflexivity.
  - apply (reconnect_budget unit (fun _ => None) (fun q => q)
             (1 # 2) worn_session).
    vm_compute. discriminate.
Defined.

(** After two failed connects the counter is 2; the successful third one
    sets it to 0. *)
Lemma connect_resets_counter_witness :
  exists s2 t,
    run unit (fun _ => None) (fun q => q)
        (faulty_script ++ [(1 # 2, Connected (Returns 3%nat))]) connecting_session
      = Some (s2, t)
    /\ _reconnects s2 = 0.
Proof.
  destruct (connect_resets_counter unit (fun _ => None) (fun q => q)
              faulty_script (1 # 2) 3%nat connecting_session _ _
              eq_refl eq_refl) as (s2 & t2 & H & H0 & _).
  exists s2. eexists. split; [exact H | exact H0].
Defined.

Lemma decode_failure_continues_witness :
  resume unit (fun _ => None) (fun q => q) (1 # 2)
         (Received (Returns "{not json"%string)) live_session
    = Some (live_session, [Log unit ERROR (MsgParseError "{not json")]).
Proof.
  apply (decode_failure_continues unit (fun _ => None) (fun q => q)); reflexivity.
Defined.

Lemma handler_fault_reconnects_witness :
  exists t0,
    resume unit (fun _ => None) (fun q => q) (1 # 2)
           (Handled (Raises OtherException)) handling_session
      = Some (fst (_reconnect unit (fun q => q) (1 # 2) handling_session),
              t0 ++ snd (_reconnect unit (fun q => q) (1 # 2) handling_session)).
Proof.
  destruct (handler_fault_reconnects unit (fun _ => None) (fun q => q) (1 # 2)
              OtherException handling_session eq_refl) as (t0 & H & _).
  exists t0. exact H.
Defined.

(** [cancel] on a session whose task is inside [connect(...)]: the call
    returns and the session is left with a new task, which is connecting. *)
Lemma cancel_schedules_reconnect_witness :
  In (EnsureFuture unit "btcusdt@trade")
     (snd (fst (cancel unit (fun q => q) (1 # 2) connecting_session)))
  /\ _conn (fst (fst (cancel unit (fun q => q) (1 # 2) connecting_session)))
     = Some (Suspended AtConnect)
  /\ snd (cancel unit (fun q => q) (1 # 2) connecting_session) = Returns tt.
Proof.
  destruct (cancel_schedules_reconnect unit (fun q => q) (1 # 2) AtConnect
              connecting_session eq_refl) as (H1 & H2 & _ & _ & _ & H6).
  - discriminate.
  - discriminate.
  - reflexivity.
  - split; [exact H1 | split; [exact H2 | exact H6]].
Defined.

(** ** Starting a registered identifier *)



(** ** Closing while a session sleeps its backoff *)

(** [close] on a manager with a connected stream and one in its backoff
    sleep, the sleeping one visited first. *)
Lemma close_raises_on_sleeping_session_witness :
  snd (close unit (fun q => q) (fun _ => 1 # 2)
         ["ethusdt@trade"%string; "btcusdt@trade"%string] sleepy_manager)
  = Raises RuntimeError
  /\ dict_keys (_conns (fst (fst (close unit (fun q => q) (fun _ => 1 # 2)
                                    ["ethusdt@trade"%string; "btcusdt@trade"%string]
                                    sleepy_manager))))
     = ["btcusdt@trade"%string; "ethusdt@trade"%string]
  /\ forall sock,
       ~ In (Close unit sock)
            (snd (fst (close unit (fun q => q) (fun _ => 1 # 2)
                         ["ethusdt@trade"%string; "btcusdt@trade"%string]
                         sleepy_manager))).
Proof.
  destruct (close_raises_on_sleeping_session unit (fun q => q) (fun _ => 1 # 2)
              ["btcusdt@trade"%string] sleepy_manager
              "ethusdt@trade"%string sleeping_session)
    as (H1 & _ & H3 & _ & _ & _ & H7).
  - reflexivity.
  - reflexivity.
  - split; [exact H1 | split; [exact H3 | exact (H7 eq_refl)]].
Defined.

(** ** Listen keys of 64 characters *)

(** Starting the user stream again under its stored 64-character key. *)
Lemma start_user_socket_can_be_noop_witness :
  _start_user_socket unit (fun q => q) (1 # 2) 2%nat key64 (Some 6%nat)
    (user_manager key64)
  = (set_user_callback (Some 6%nat) (user_manager key64), [], Returns None).
Proof.
  apply (start_user_socket_can_be_noop unit (fun q => q) (1 # 2) 2%nat key64 (Some 6%nat)
           (user_manager key64) (user_session key64)).
  - reflexivity.
  - vm_compute. discriminate.
  - reflexivity.
Defined.

(** The renewal of a 64-character key by another one. *)
Lemma keepalive_leaves_old_session_witness :
  dict_get key64
    (_conns (fst (fst (_keepalive_user_socket unit (fun q => q) (1 # 2) 2%nat key64'
                         (user_manager key64)))))
  = Some (user_session key64)
  /\ snd (fst (_keepalive_user_socket unit (fun q => q) (1 # 2) 2%nat key64'
                 (user_manager key64)))
     = [Log unit DEBUG (MsgKeys key64' (Some key64)); EnsureFuture unit key64';
        CallLater unit _user_timeout 2%nat].
Proof.
  destruct (keepalive_leaves_old_session unit (fun q => q) (1 # 2) 2%nat key64' key64
              (user_manager key64) (user_session key64) eq_refl) as [_ H].
  destruct H as (H1 & H2 & _).
  - unfold key64, key64'. discriminate.
  - discriminate.
  - vm_compute. discriminate.
  - reflexivity.
  - reflexivity.
  - split; [exact H2 | rewrite H1; reflexivity].
Defined.

(** ** The further properties at sample inputs *)

Lemma probe_keeps_session_witness :
  run unit (fun _ => None) (fun q => q)
      [(1 # 2, Received (Raises TimeoutError)); (1 # 2, PingSent (Returns tt));
       (1 # 2, Pong (Returns tt))] live_session
  = Some (live_session, [Ping unit 7%nat; Log unit DEBUG MsgPingOK]).
Proof.
  apply (probe_keeps_session unit (fun _ => None) (fun q => q)).
  - reflexivity.
  - reflexivity.
  - left. reflexivity.
Defined.

Lemma frame_reaches_handler_witness :
  run string (fun evt => Some evt) (fun q => q)
      [(1 # 2, Received (Returns "{}"%string)); (1 # 2, Handled (Returns tt))]
      live_session
  = Some (live_session, [Call string 1%nat "{}"%string]).
Proof.
  apply (frame_reaches_handler string (fun evt => Some evt) (fun q => q));
    reflexivity.
Defined.

Lemma fault_routes_to_reconnect_witness :
  exists t0,
    resume unit (fun _ => None) (fun q => q) (1 # 2) (Connected (Raises gaierror))
           connecting_session
    = Some (fst (_reconnect unit (fun q => q) (1 # 2) connecting_session),
            t0 ++ snd (_reconnect unit (fun q => q) (1 # 2) connecting_session)).
Proof.
  destruct (fault_routes_to_reconnect unit (fun _ => None) (fun q => q) (1 # 2)
              gaierror (Connected (Raises gaierror)) connecting_session)
    as (t0 & H & _).
  - left. split; reflexivity.
  - exists t0. exact H.
Defined.

Lemma task_only_after_sleep_witness :
  Slept (Returns tt) = Slept (Returns tt)
  /\ _conn (set_conn (Some (Suspended AtSleep)) worn_session)
     = Some (Suspended AtSleep)
  /\ "btcusdt@trade"%string = _path (set_conn (Some (Suspended AtSleep)) worn_session).
Proof.
  apply (task_only_after_sleep unit (fun _ => None) (fun q => q) (1 # 2)
           (Slept (Returns tt)) (set_conn (Some (Suspended AtSleep)) worn_session)
           (suspend AtStart worn_session) [EnsureFuture unit "btcusdt@trade"]).
  - reflexivity.
  - left. reflexivity.
Defined.

Lemma session_invariant_witness :
  session_ok (fst (fst (cancel unit (fun q => q) (1 # 2) live_session))) = true.
Proof.
  apply (session_invariant unit (fun _ => None) (fun q => q) live_session).
  reflexivity.
Defined.

Lemma cancel_stops_idle_task_witness :
  snd (cancel unit (fun q => q) (1 # 2) sleeping_session) = Raises RuntimeError
  /\ _reconnects (fst (fst (cancel unit (fun q => q) (1 # 2) sleeping_session))) = 1.
Proof.
  destruct (cancel_stops_idle_task unit (fun _ => None) (fun q => q) (1 # 2)
              sleeping_session) as (_ & H2 & _ & _ & _ & H6 & _).
  - right. left. reflexivity.
  - split; [exact (proj1 (H6 eq_refl)) | exact H2].
Defined.

Lemma gives_up_at_twentieth_failure_witness :
  exists s' t,
    run unit (fun _ => None) (fun q => q)
        (failures (repeat (1 # 2, gaierror) 19) ++ [(1 # 2, Connected (Raises gaierror))])
        connecting_session
    = Some (s', t)
    /\ _conn s' = Some Finished.
Proof.
  destruct (gives_up_at_twentieth_failure unit (fun _ => None) (fun q => q)
              (repeat (1 # 2, gaierror) 19) (1 # 2) gaierror connecting_session)
    as [_ H].
  - reflexivity.
  - reflexivity.
  - reflexivity.
  - apply le_n.
  - destruct (H eq_refl) as (s' & t & H1 & H2 & _). exists s', t. split; assumption.
Defined.

Lemma backoff_sleeps_bounded_witness : 1 <= 2 <= 61.
Proof.
  eapply (backoff_sleeps_bounded unit (fun _ => None) (fun q => q)
            (fun a b H => H) (fun z _ => Qeq_refl _)
            faulty_script connecting_session).
  - reflexivity.
  - repeat constructor; discriminate.
  - vm_compute. reflexivity.
  - cbn. repeat (first [left; reflexivity | right]).
Defined.

Lemma registry_invariant_witness :
  registry_ok (snd (fst (start_trade_socket unit (fun x => x) "btcusdt" 1%nat
                           new_manager))).
Proof.
  apply (registry_invariant unit (fun q => q) (fun x => x) new_manager).
  split; [constructor | discriminate].
Defined.

Lemma start_then_stop_witness :
  stop_socket unit (fun q => q) (1 # 2) "btcusdt@trade"
    (snd (fst (_start_socket unit "btcusdt@trade" (Some 1%nat) "ws/" new_manager)))
  = (new_manager,
     [Log unit WARNING (MsgCancelling "btcusdt@trade"); TaskCancel unit "btcusdt@trade";
      Log unit DEBUG MsgCancellingTask; Log unit DEBUG MsgTaskCancelled],
     Returns tt).
Proof.
  apply (start_then_stop unit (fun q => q) (1 # 2) "btcusdt@trade" (Some 1%nat) "ws/"
           new_manager); reflexivity.
Defined.

Lemma user_manager_ok (k : string) :
  k <> "btcusdt@trade"%string -> registry_ok (user_manager k).
Proof.
  intros Hk. split.
  - repeat constructor; simpl; intuition congruence.
  - intros c s. unfold user_manager. cbn [_conns dict_get].
    destruct (String.eqb_spec c "btcusdt@trade") as [-> | _].
    + intros H. injection H as <-. reflexivity.
    + destruct (String.eqb_spec c k) as [-> | _]; [| discriminate].
      intros H. injection H as <-. reflexivity.
Qed.

Lemma sleepy_manager_ok : registry_ok sleepy_manager.
Proof.
  split.
  - repeat constructor; simpl; intuition discriminate.
  - intros c s. unfold sleepy_manager. cbn [_conns dict_get].
    destruct (String.eqb_spec c "btcusdt@trade") as [-> | _].
    + intros H. injection H as <-. reflexivity.
    + destruct (String.eqb_spec c "ethusdt@trade") as [-> | _]; [| discriminate].
      intros H. injection H as <-. reflexivity.
Qed.

(** Stopping and restarting the connected user stream, and the same on a
    stream in its backoff sleep. *)
Lemma stop_then_start_witness :
  fst (fst (_start_socket unit key60 (Some 6%nat) "ws/"
              (fst (fst (stop_socket unit (fun q => q) (1 # 2) key60
                           (user_manager key60))))))
  = Some key60
  /\ snd (stop_socket unit (fun q => q) (1 # 2) "ethusdt@trade" sleepy_manager)
     = Raises RuntimeError
  /\ fst (fst (_start_socket unit "ethusdt@trade" (Some 6%nat) "ws/"
                 (fst (fst (stop_socket unit (fun q => q) (1 # 2) "ethusdt@trade"
                              sleepy_manager)))))
     = None.
Proof.
  split.
  - destruct (stop_then_start unit (fun q => q) (1 # 2) key60 (Some 6%nat) "ws/"
                (user_manager key60) (user_session key60)) as [H _].
    + apply user_manager_ok. unfold key60. discriminate.
    + reflexivity.
    + destruct H as (_ & H & _); [discriminate | exact H].
  - destruct (stop_then_start unit (fun q => q) (1 # 2) "ethusdt@trade" (Some 6%nat) "ws/"
                sleepy_manager sleeping_session) as [_ H].
    + exact sleepy_manager_ok.
    + reflexivity.
    + destruct (H eq_refl) as (H1 & _ & H3). split; [exact H1 |].
      rewrite H3. reflexivity.
Defined.

Lemma stop_keeps_the_rest_witness :
  _user_timer (fst (fst (stop_socket unit (fun q => q) (1 # 2) "btcusdt@trade"
                           (user_manager key60)))) = Some 1%nat
  /\ dict_get "ethusdt@trade"
       (_conns (fst (fst (stop_socket unit (fun q => q) (1 # 2) "ethusdt@trade"
                            sleepy_manager))))
     = Some (set_conn (Some Cancelled) sleeping_session).
Proof.
  split.
  - destruct (stop_keeps_the_rest unit (fun q => q) (1 # 2) "btcusdt@trade"
                (user_manager key60)) as [H _].
    + apply user_manager_ok. unfold key60. discriminate.
    + reflexivity.
    + exact H.
  - destruct (stop_keeps_the_rest unit (fun q => q) (1 # 2) "ethusdt@trade"
                sleepy_manager) as (_ & _ & _ & _ & _ & _ & H).
    + exact sleepy_manager_ok.
    + reflexivity.
    + exact (proj2 (H sleeping_session eq_refl eq_refl)).
Defined.

Lemma close_renewal_state_witness :
  _user_timer (fst (fst (close unit (fun q => q) (fun _ => 1 # 2)
                           ["btcusdt@trade"%string; key60] (user_manager key60)))) = None
  /\ _user_timer (fst (fst (close unit (fun q => q) (fun _ => 1 # 2)
                              ["btcusdt@trade"%string; key64] (user_manager key64))))
     = Some 1%nat.
Proof.
  split.
  - destruct (close_renewal_state unit (fun q => q) (fun _ => 1 # 2)
                ["btcusdt@trade"%string; key60] (user_manager key60)) as (_ & _ & H).
    destruct H as [_ H].
    + intros k s [E | [E | []]]; injection E as <- <-; discriminate.
    + apply H. exists key60, (user_session key60).
      split; [right; left; reflexivity | split; reflexivity].
  - destruct (close_renewal_state unit (fun q => q) (fun _ => 1 # 2)
                ["btcusdt@trade"%string; key64] (user_manager key64)) as (_ & H & _).
    apply H. intros k [<- | [<- | []]]; reflexivity.
Defined.

Lemma user_stream_round_trip_witness :
  _conns (fst (fst (stop_socket unit (fun q => q) (1 # 4) key60
                      (fst (fst (start_user_socket unit (fun q => q) (1 # 2) 3%nat key60
                                   5%nat new_manager)))))) = []
  /\ In (StreamClose unit key60)
        (snd (fst (stop_socket unit (fun q => q) (1 # 4) key60
                     (fst (fst (start_user_socket unit (fun q => q) (1 # 2) 3%nat key60
                                  5%nat new_manager)))))).
Proof.
  destruct (user_stream_round_trip unit (fun q => q) (1 # 2) (1 # 4) 3%nat key60
              5%nat new_manager) as (_ & _ & _ & _ & H4 & _ & _ & _ & _ & H9).
  - reflexivity.
  - reflexivity.
  - reflexivity.
  - split; [exact H4 | exact H9].
Defined.

Lemma started_session_url_witness :
  exists s,
    dict_get "btcusdt@trade"
      (_conns (snd (fst (start_trade_socket unit (fun x => x) "btcusdt" 1%nat
                           new_manager)))) = Some s
    /\ resume unit (fun _ => None) (fun q => q) (1 # 2) Step s
       = Some (suspend AtConnect s,
               [Connect unit "wss://stream.binance.com:9443/ws/btcusdt@trade"]).
Proof.
  destruct (started_session_url unit (fun _ => None) (fun q => q) (fun x => x) (1 # 2)
              "btcusdt" ["btcusdt@trade"%string; "ethusdt@trade"%string] 1%nat
              new_manager) as [H _].
  - reflexivity.
  - reflexivity.
  - exact H.
Defined.

Lemma miniticker_streams_distinct_witness :
  ("!miniTicker@arr@" ++ py_str_int 1000 ++ "ms")%string
  <> ("!miniTicker@arr@" ++ py_str_int 2000 ++ "ms")%string.
Proof.
  apply (miniticker_streams_distinct unit 1%nat 2%nat 1000 2000 new_manager).
  discriminate.
Defined.

(** [close] on the manager with a connected trade stream and a connected
    user stream. *)
Lemma close_leaves_sessions_reconnecting_witness :
  _conns (fst (fst (close unit (fun q => q) (fun _ => 1 # 2)
                      [key60; "btcusdt@trade"%string] (user_manager key60)))) = []
  /\ In (Close unit 7%nat)
        (snd (fst (close unit (fun q => q) (fun _ => 1 # 2)
                     [key60; "btcusdt@trade"%string] (user_manager key60))))
  /\ In (Connect unit "wss://stream.binance.com:9443/ws/btcusdt@trade")
        (snd (fst (close unit (fun q => q) (fun _ => 1 # 2)
                     [key60; "btcusdt@trade"%string] (user_manager key60)))).
Proof.
  destruct (close_leaves_sessions_reconnecting unit (fun q => q) (fun _ => 1 # 2)
              [key60; "btcusdt@trade"%string] (user_manager key60))
    as (_ & H2 & _ & H4 & H5).
  - repeat constructor; simpl; intuition discriminate.
  - apply perm_swap.
  - intros k s [E | [E | []]]; injection E as <- <-; discriminate.
  - split; [exact H2 |]. split.
    + apply (H4 "btcusdt@trade"%string live_session 7%nat); reflexivity.
    + destruct (H5 "btcusdt@trade"%string live_session AtRecv) as (_ & _ & H).
      * reflexivity.
      * reflexivity.
      * discriminate.
      * reflexivity.
      * exact H.
Defined.

(** Restarting the connected user stream under its stored 60-character
    key. *)
Lemma start_user_socket_restarts_witness :
  snd (_start_user_socket unit (fun q => q) (1 # 2) 2%nat key60 (Some 6%nat)
         (user_manager key60)) = Returns (Some key60)
  /\ In (StreamClose unit key60)
        (snd (fst (_start_user_socket unit (fun q => q) (1 # 2) 2%nat key60 (Some 6%nat)
                     (user_manager key60)))).
Proof.
  destruct (start_user_socket_restarts unit (fun q => q)
              (1 # 2) 2%nat key60 key60 (Some 6%nat) (user_manager key60)
              (user_session key60)) as [H _].
  - reflexivity.
  - reflexivity.
  - reflexivity.
  - repeat constructor; simpl; intuition discriminate.
  - intros c [<- | [<- | []]]; [discriminate | reflexivity].
  - discriminate.
  - left. reflexivity.
  - rewrite H by discriminate. split; [reflexivity |]. vm_compute. tauto.
Defined.

(** A rotation from one 60-character key to another. *)
Lemma keepalive_rotates_witness :
  dict_get key60
    (_conns (fst (fst (_keepalive_user_socket unit (fun q => q) (1 # 2) 2%nat key60'
                         (user_manager key60))))) = None
  /\ _user_timer (fst (fst (_keepalive_user_socket unit (fun q => q) (1 # 2) 2%nat key60'
                              (user_manager key60)))) = Some 2%nat.
Proof.
  destruct (keepalive_rotates unit (fun q => q)
              (1 # 2) 2%nat key60 key60' (user_manager key60)
              (user_session key60)) as (_ & H2 & _ & _ & _ & _ & H7 & _).
  - reflexivity.
  - reflexivity.
  - reflexivity.
  - repeat constructor; simpl; intuition discriminate.
  - intros c [<- | [<- | []]]; [discriminate | reflexivity].
  - discriminate.
  - unfold key60, key60'. discriminate.
  - reflexivity.
  - discriminate.
  - split; [exact H2 | exact H7].
Defined.
